(** * multi_agent_doc_system: the PDF ingestion pipeline

    A shallow embedding of [pdf_processor.py] and [indexing_agent.py].

    - Python [str] is [string]; a text unit is one character.
    - Python [int] is [Z].
    - A Python [dict] with string keys is a [gmap string _].
    - Code that talks to the disk, to PyPDF2 or to LightRAG runs in the
      monad [M]: it threads a [World] and either returns a value or raises
      an exception.
    - [print] calls are left out.  The exceptions of the model are those of
      the file system and of the libraries; an exception raised by [print]
      itself (a console that cannot encode a message) is outside it, and no
      statement below speaks about one. *)

From Stdlib Require Import ZArith String Ascii List Lia.
From stdpp Require Import base option strings gmap fin_maps.

Local Open Scope string_scope.
Local Open Scope Z_scope.

(** ** Python strings *)

Module Py.

(** [len(s)] *)
Definition len (s : string) : Z := Z.of_nat (String.length s).

(** [s[:n]]: a negative bound counts from the end of the string and a
    bound past either end is clamped. *)
Definition slice_to (s : string) (n : Z) : string :=
  if n <? 0
  then String.substring 0 (Z.to_nat (len s + n)) s
  else String.substring 0 (Z.to_nat n) s.

(** Truth value of a string: [if s] holds for every string but [""]. *)
Definition truthy (s : string) : bool :=
  match s with
  | EmptyString => false
  | String _ _ => true
  end.

(** [sep.join(parts)] *)
Fixpoint join (sep : string) (parts : list string) : string :=
  match parts with
  | nil => ""
  | p :: nil => p
  | p :: rest => p +:+ sep +:+ join sep rest
  end.

(** [s.endswith(suffix)] *)
Definition endswith (s suffix : string) : bool :=
  let n := String.length s in
  let k := String.length suffix in
  (k <=? n)%nat && String.eqb (String.substring (n - k) k s) suffix.

(** [s.startswith(prefix)] *)
Definition startswith (s prefix : string) : bool := String.prefix prefix s.

(** The one-character string ["\n"]. *)
Definition newline : string := String (ascii_of_nat 10) "".

(** Python values that end up in the dictionaries the pipeline returns. *)
#[local] Set Warnings "-register-all".
Inductive value :=
| None_
| Str (s : string)
| Int (z : Z)
| Dict (d : gmap string value).
#[local] Set Warnings "register-all".

(** [str(x) if x is not None else None] *)
Definition str_or_none (x : option string) : value :=
  match x with
  | Some s => Str s
  | None => None_
  end.

(** [str(x) if x else None], for [x] a string or [None] *)
Definition str_if_truthy (x : option string) : value :=
  match x with
  | Some s => if truthy s then Str s else None_
  | None => None_
  end.

(** [key in d] *)
Definition contains (key : string) (d : gmap string value) : bool :=
  bool_decide (is_Some (d !! key)).

End Py.

(** ** Exceptions

    Every exception the code can meet derives from [Exception]; two classes
    are caught by name. *)

Inductive exn :=
| FileNotFoundError (msg : string)
| PdfReadError (msg : string)
| ValueError (msg : string)
| OtherException (msg : string).

(** [str(e)] *)
Definition str_exn (e : exn) : string :=
  match e with
  | FileNotFoundError msg | PdfReadError msg
  | ValueError msg | OtherException msg => msg
  end.

Inductive outcome (A : Type) :=
| Returned (a : A)
| Raised (e : exn).
Arguments Returned {A} a.
Arguments Raised {A} e.

(** ** The PyPDF2 objects the code touches

    PyPDF2 is an external library: a reader is described by what each
    attribute access or call of the source gives back. *)

Module PyPDF2.

Record PageObject := {
  extract_text : outcome string;
}.

Record DocumentInformation := {
  truthy : bool;
  title : option string;
  author : option string;
  subject : option string;
  creator : option string;
  producer : option string;
  (** [get_object()]: [None] when the raw dictionary is falsy, else its
      lookup function [.get(key)]. *)
  get_object : option (string -> option string);
}.

Record PdfReader := {
  is_encrypted : bool;
  decrypt : string -> outcome unit;
  pages : outcome (list PageObject);
  metadata : outcome (option DocumentInformation);
}.

End PyPDF2.

(** ** The world outside the process *)

(** What [open(path, "rb")] hands to [PyPDF2.PdfReader]. *)
Inductive FileContent :=
| Unparsable (e : exn)              (* [PdfReader(file)] raises [e] *)
| Pdf (reader : PyPDF2.PdfReader).

Inductive Component :=
| OpenAI_client | OpenAIEmbedder | OpenAIChatLLM | LightRAG_engine.

Inductive Event :=
| Opened (path : string)
| MadeDirs (dir : string)
| Constructed (c : Component).

Record LightRAG := {
  oid : nat;                        (* identity of the Python object *)
  working_dir : string;
  embedder_model : string;
  llm_model : string;
}.

Record World := {
  (** files on disk; [None] where no file exists *)
  disk : string -> option FileContent;
  (** for a path with no file: the exception [open] raises when it is not
      [FileNotFoundError] ([ValueError] for a NUL character in the path,
      [NotADirectoryError], [IsADirectoryError], ...) *)
  open_raises : string -> option exn;
  (** whether [load_dotenv()] raises *)
  load_dotenv_raises : option exn;
  (** [os.getenv], after [load_dotenv()] *)
  environ : string -> option string;
  (** whether [os.makedirs(dir, exist_ok=True)] raises *)
  makedirs_raises : string -> option exn;
  (** whether the [n]-th constructor call of the process raises *)
  constructor_raises : nat -> Component -> option exn;
  (** constructor calls made so far *)
  constructed : nat;
  (** what the process did so far, latest first *)
  log : list Event;
}.

Definition record (ev : Event) (w : World) : World :=
  {| disk := disk w; open_raises := open_raises w;
     load_dotenv_raises := load_dotenv_raises w; environ := environ w;
     makedirs_raises := makedirs_raises w;
     constructor_raises := constructor_raises w;
     constructed := constructed w;
     log := ev :: log w |}.

Definition count_constructor (w : World) : World :=
  {| disk := disk w; open_raises := open_raises w;
     load_dotenv_raises := load_dotenv_raises w; environ := environ w;
     makedirs_raises := makedirs_raises w;
     constructor_raises := constructor_raises w;
     constructed := S (constructed w);
     log := log w |}.

(** ** The monad of effectful Python code *)

Definition M (A : Type) : Type := World -> outcome A * World.

#[global] Instance M_ret : MRet M := fun A a w => (Returned a, w).

#[global] Instance M_bind : MBind M := fun A B f m w =>
  match m w with
  | (Returned a, w') => f a w'
  | (Raised e, w') => (Raised e, w')
  end.

Definition raise {A : Type} (e : exn) : M A := fun w => (Raised e, w).

(** [try: body / except Exception as e: handler e] *)
Definition try_except {A : Type} (body : M A) (handler : exn -> M A) : M A :=
  fun w =>
    match body w with
    | (Returned a, w') => (Returned a, w')
    | (Raised e, w') => handler e w'
    end.

(** An attribute access or call whose result the library fixed. *)
Definition lift {A : Type} (o : outcome A) : M A := fun w => (o, w).

(** What a computation gives back when run in world [w]. *)
Definition result {A : Type} (m : M A) (w : World) : outcome A := fst (m w).

(** The exception [open(path, "rb")] raises for a path with no file. *)
Definition open_exception (w : World) (path : string) : exn :=
  match open_raises w path with
  | Some e => e
  | None =>
      FileNotFoundError
        ("[Errno 2] No such file or directory: '" +:+ path +:+ "'")
  end.

(** [open(path, "rb")] *)
Definition open_rb (path : string) : M FileContent := fun w =>
  match disk w path with
  | Some content => (Returned content, record (Opened path) w)
  | None => (Raised (open_exception w path), record (Opened path) w)
  end.

(** [PyPDF2.PdfReader(file)] *)
Definition PdfReader (file : FileContent) : M PyPDF2.PdfReader :=
  match file with
  | Unparsable e => raise e
  | Pdf reader => mret reader
  end.

(** [os.makedirs(dir, exist_ok=True)] *)
Definition os_makedirs (dir : string) : M unit := fun w =>
  match makedirs_raises w dir with
  | Some e => (Raised e, record (MadeDirs dir) w)
  | None => (Returned tt, record (MadeDirs dir) w)
  end.

(** A constructor call of one of the LightRAG classes; on success it gives
    the identity of the new object. *)
Definition construct (c : Component) : M nat := fun w =>
  let n := constructed w in
  let w' := record (Constructed c) (count_constructor w) in
  match constructor_raises w n c with
  | Some e => (Raised e, w')
  | None => (Returned n, w')
  end.

(** ** pdf_processor.py *)

Module pdf_processor.

(** [reader.decrypt('')] under its own [try]; [false] stands for the
    [except] branch, where the caller returns at once. *)
Definition decrypt_with_empty_password (reader : PyPDF2.PdfReader) : M bool :=
  if PyPDF2.is_encrypted reader
  then try_except (_ ← lift (PyPDF2.decrypt reader ""); mret true)
                  (fun decrypt_err => mret false)
  else mret true.

(** The loop [for page_num in range(len(reader.pages))]: the text of each
    page is appended to [text_parts] unless it is empty. *)
Fixpoint page_texts (pages : list PyPDF2.PageObject) (text_parts : list string)
  : M (list string) :=
  match pages with
  | [] => mret text_parts
  | page :: rest =>
      page_text ← lift (PyPDF2.extract_text page);
      page_texts rest
        (if Py.truthy page_text then text_parts ++ [page_text] else text_parts)
  end.

Definition extract_text_from_pdf (pdf_path : string) (method : string) : M string :=
  if String.eqb method "pypdf2" then
    try_except
      (file ← open_rb pdf_path;
       reader ← PdfReader file;
       unlocked ← decrypt_with_empty_password reader;
       if (unlocked : bool) then
         pages ← lift (PyPDF2.pages reader);
         match pages with
         | _ :: _ =>
             text_parts ← page_texts pages [];
             mret (Py.join Py.newline text_parts)
         | [] => mret ""
         end
       else mret "")
      (fun e =>
         match e with
         | FileNotFoundError _ => mret ""
         | PdfReadError _ => mret ""
         | _ => mret ""
         end)
  else mret "".

(** [len(reader.pages) if reader.pages else 0] *)
Definition page_count (pages : list PyPDF2.PageObject) : Z :=
  match pages with
  | _ :: _ => Z.of_nat (length pages)
  | [] => 0
  end.

Definition error_record (cause pdf_path : string) : gmap string Py.value :=
  <["FilePath" := Py.Str pdf_path]> (<["Error" := Py.Str cause]> ∅).

Definition extract_metadata_from_pdf (pdf_path : string) : M (gmap string Py.value) :=
  let metadata_dict : gmap string Py.value := ∅ in
  try_except
    (file ← open_rb pdf_path;
     reader ← PdfReader file;
     unlocked ← decrypt_with_empty_password reader;
     if (unlocked : bool) then
       metadata ← lift (PyPDF2.metadata reader);
       match metadata with
       | Some metadata =>
           if PyPDF2.truthy metadata then
             let metadata_dict :=
               <["Title" := Py.str_or_none (PyPDF2.title metadata)]> metadata_dict in
             let metadata_dict :=
               <["Author" := Py.str_or_none (PyPDF2.author metadata)]> metadata_dict in
             let metadata_dict :=
               <["Subject" := Py.str_or_none (PyPDF2.subject metadata)]> metadata_dict in
             let metadata_dict :=
               <["Creator" := Py.str_or_none (PyPDF2.creator metadata)]> metadata_dict in
             let metadata_dict :=
               <["Producer" := Py.str_or_none (PyPDF2.producer metadata)]> metadata_dict in
             let metadata_dict :=
               match PyPDF2.get_object metadata with
               | Some raw_metadata =>
                   <["ModDate" := Py.str_if_truthy (raw_metadata "/ModDate")]>
                     (<["CreationDate" := Py.str_if_truthy (raw_metadata "/CreationDate")]>
                        metadata_dict)
               | None =>
                   <["ModDate" := Py.None_]>
                     (<["CreationDate" := Py.None_]> metadata_dict)
               end in
             pages ← lift (PyPDF2.pages reader);
             mret (<["PageCount" := Py.Int (page_count pages)]> metadata_dict)
           else
             pages ← lift (PyPDF2.pages reader);
             mret (<["PageCount" := Py.Int (page_count pages)]> metadata_dict)
       | None =>
           pages ← lift (PyPDF2.pages reader);
           mret (<["PageCount" := Py.Int (page_count pages)]> metadata_dict)
       end
     else mret (error_record "Encrypted PDF, decryption failed." pdf_path))
    (fun e =>
       match e with
       | FileNotFoundError _ => mret (error_record "File not found." pdf_path)
       | PdfReadError pre =>
           mret (error_record ("PyPDF2 PdfReadError: " +:+ pre) pdf_path)
       | _ => mret (error_record ("Unexpected error: " +:+ str_exn e) pdf_path)
       end).

End pdf_processor.

(** ** Derivation stage: [IndexingAgent._summarize_text] and
       [IndexingAgent._classify_document]

    Neither method reads or writes [self]. *)

Definition default_max_chars : Z := 500.

Definition _summarize_text (text : string) (max_chars : Z) : string :=
  if negb (Py.truthy text) then "No text provided for summarization."
  else
    let summary :=
      if Py.len text >? max_chars
      then Py.slice_to text max_chars +:+ "..."
      else text in
    "[Placeholder Summary]: " +:+ summary.

Definition _classify_document (text : string) : string :=
  if negb (Py.truthy text) then "No text provided for classification."
  else "[Placeholder Classification]: General Legal Document".


(** ** indexing_agent.py: class [IndexingAgent] *)

Record IndexingAgent := {
  api_key : string;
  lightrag_instance : option LightRAG;
}.

Definition set_lightrag_instance (self : IndexingAgent) (inst : option LightRAG)
  : IndexingAgent :=
  {| api_key := api_key self; lightrag_instance := inst |}.

(** [os.getenv(name)] *)
Definition os_getenv (name : string) : M (option string) :=
  fun w => (Returned (environ w name), w).

(** [load_dotenv()] *)
Definition load_dotenv : M unit := fun w =>
  match load_dotenv_raises w with
  | Some e => (Raised e, w)
  | None => (Returned tt, w)
  end.

(** [IndexingAgent.__init__].  The OpenAI client it constructs is stored in
    [self.openai_client] and never read again, so the agent record does not
    keep it. *)
Definition __init__ (openai_api_key : option string) : M IndexingAgent :=
  _ ← load_dotenv;
  key ← match openai_api_key with
        | Some k => if Py.truthy k then mret (Some k) else os_getenv "OPENAI_API_KEY"
        | None => os_getenv "OPENAI_API_KEY"
        end;
  match key with
  | Some k =>
      if Py.truthy k
      then
        openai_client ← construct OpenAI_client;
        mret {| api_key := k; lightrag_instance := None |}
      else raise (ValueError
             "OpenAI API key not found. Please set it in .env or pass it directly.")
  | None =>
      raise (ValueError
             "OpenAI API key not found. Please set it in .env or pass it directly.")
  end.

Definition default_working_dir : string := "./lightrag_data".

Definition initialize_lightrag (self : IndexingAgent) (working_dir : string)
  : M IndexingAgent :=
  _ ← os_makedirs working_dir;
  try_except
    (embedder ← construct OpenAIEmbedder;
     llm ← construct OpenAIChatLLM;
     engine ← construct LightRAG_engine;
     mret (set_lightrag_instance self
             (Some {| oid := engine; working_dir := working_dir;
                      embedder_model := "text-embedding-ada-002";
                      llm_model := "gpt-4o-mini" |})))
    (fun e => mret (set_lightrag_instance self None)).

Module indexing_agent.
Section Pipeline.

(** The two names the module imports from [pdf_processor], called with
    their default arguments. *)
Variable extract_text_from_pdf : string -> M string.
Variable extract_metadata_from_pdf : string -> M (gmap string Py.value).

Definition process_pdf_document (pdf_path : string) : M (gmap string Py.value) :=
  extracted ← try_except
                 (text ← extract_text_from_pdf pdf_path;
                  metadata ← extract_metadata_from_pdf pdf_path;
                  mret (inl (text, metadata)))
                 (fun e => mret (inr e));
  match extracted with
  | inr e =>
      mret (<["path" := Py.Str pdf_path]> (<["error" := Py.Str (str_exn e)]> ∅))
  | inl (text, metadata) =>
      let summary := _summarize_text text default_max_chars in
      let classification := _classify_document text in
      let processed_data : gmap string Py.value :=
        <["classification" := Py.Str classification]>
          (<["summary" := Py.Str summary]>
             (<["full_text_char_count" :=
                  Py.Int (if Py.truthy text then Py.len text else 0)]>
                (<["extracted_text_snippet" :=
                     Py.Str (if Py.truthy text
                             then Py.slice_to text 200 +:+ "..."
                             else "N/A")]>
                   (<["metadata" := Py.Dict metadata]>
                      (<["file_path" := Py.Str pdf_path]> ∅))))) in
      mret processed_data
  end.

(** The coroutine never awaits, so it runs like a plain method.  It returns
    [None] or a dictionary.  The [try] around the simulated insertion holds
    [print] calls and one assignment; with the prints left out nothing in it
    raises, and its [except] branch, which sets the status "Failed: ...", is
    reached only by an exception of those prints. *)
Definition aprocess_pdf_document_and_index (self : IndexingAgent) (pdf_path : string)
  : M (option (gmap string Py.value)) :=
  match lightrag_instance self with
  | None => mret None
  | Some _ =>
      processed_info ← process_pdf_document pdf_path;
      if Py.contains "error" processed_info then mret (Some processed_info)
      else
        full_text ← extract_text_from_pdf pdf_path;
        if Py.truthy full_text then
          processed_info ←
            try_except
              (mret (<["indexing_status" :=
                         Py.Str "Simulated as successfully indexed by LightRAG"]>
                       processed_info))
              (fun e =>
                 mret (<["indexing_status" := Py.Str ("Failed: " +:+ str_exn e)]>
                         processed_info));
          mret (Some processed_info)
        else
          mret (Some (<["indexing_status" := Py.Str "Skipped (no text)"]>
                        processed_info))
  end.

End Pipeline.
End indexing_agent.

(** The program as it runs: the agent linked with [pdf_processor]. *)

Definition extract_text (pdf_path : string) : M string :=
  pdf_processor.extract_text_from_pdf pdf_path "pypdf2".

Definition process_pdf_document : string -> M (gmap string Py.value) :=
  indexing_agent.process_pdf_document
    extract_text pdf_processor.extract_metadata_from_pdf.

Definition aprocess_pdf_document_and_index
  : IndexingAgent -> string -> M (option (gmap string Py.value)) :=
  indexing_agent.aprocess_pdf_document_and_index
    extract_text pdf_processor.extract_metadata_from_pdf.

(** ** A concrete world for the examples *)

Module Sample.

Definition hello_page : PyPDF2.PageObject :=
  {| PyPDF2.extract_text := Returned "Hello World" |}.

Definition hello_info : PyPDF2.DocumentInformation :=
  {| PyPDF2.truthy := true;
     PyPDF2.title := Some "Indexing Test Doc";
     PyPDF2.author := Some "Async Main";
     PyPDF2.subject := None;
     PyPDF2.creator := None;
     PyPDF2.producer := Some "ReportLab PDF Library";
     PyPDF2.get_object := Some (fun key =>
       if String.eqb key "/CreationDate" then Some "D:20240101000000+00'00'"
       else None) |}.

(** One page whose text is "Hello World". *)
Definition hello_reader : PyPDF2.PdfReader :=
  {| PyPDF2.is_encrypted := false;
     PyPDF2.decrypt := fun _ => Returned tt;
     PyPDF2.pages := Returned [hello_page];
     PyPDF2.metadata := Returned (Some hello_info) |}.

(** An encrypted file that the empty password does not open. *)
Definition locked_reader : PyPDF2.PdfReader :=
  {| PyPDF2.is_encrypted := true;
     PyPDF2.decrypt := fun _ => Raised (OtherException "unsupported encryption");
     PyPDF2.pages := Raised (PdfReadError "File has not been decrypted");
     PyPDF2.metadata := Raised (PdfReadError "File has not been decrypted") |}.

Definition files (path : string) : option FileContent :=
  if String.eqb path "hello.pdf" then Some (Pdf hello_reader)
  else if String.eqb path "locked.pdf" then Some (Pdf locked_reader)
  else if String.eqb path "corrupt.pdf"
       then Some (Unparsable (PdfReadError "EOF marker not found"))
  else None.

(** Every constructor and [os.makedirs] succeed. *)
Definition world : World :=
  {| disk := files;
     open_raises := fun _ => None;
     load_dotenv_raises := None;
     environ := fun _ => None;
     makedirs_raises := fun _ => None;
     constructor_raises := fun _ _ => None;
     constructed := 0;
     log := [] |}.

(** As [world], but the LightRAG components start to fail once three
    constructor calls have been made. *)
Definition flaky_world : World :=
  {| disk := files;
     open_raises := fun _ => None;
     load_dotenv_raises := None;
     environ := fun _ => None;
     makedirs_raises := fun _ => None;
     constructor_raises := fun n _ =>
       if (n <? 3)%nat then None else Some (OtherException "connection refused");
     constructed := 0;
     log := [] |}.

(** An agent that has not called [initialize_lightrag]. *)
Definition fresh_agent : IndexingAgent :=
  {| api_key := "sk-test"; lightrag_instance := None |}.

(** An agent after a successful [initialize_lightrag]. *)
Definition ready_agent : IndexingAgent :=
  {| api_key := "sk-test";
     lightrag_instance :=
       Some {| oid := 2; working_dir := default_working_dir;
               embedder_model := "text-embedding-ada-002";
               llm_model := "gpt-4o-mini" |} |}.

End Sample.

(** ** Vocabulary of the statements *)

(** A field of a result record is populated when its key is in the
    dictionary. *)
Definition populated (key : string) (r : gmap string Py.value) : Prop :=
  is_Some (r !! key).

(** A file from which nothing can be read: it is missing, or [PdfReader]
    rejects it, or it is encrypted and [decrypt('')] raises, or its page
    tree cannot be read. *)
Definition unreadable (w : World) (path : string) : bool :=
  match disk w path with
  | None => true
  | Some (Unparsable _) => true
  | Some (Pdf reader) =>
      (PyPDF2.is_encrypted reader &&
       match PyPDF2.decrypt reader "" with
       | Raised _ => true
       | Returned _ => false
       end)
      || match PyPDF2.pages reader with
         | Raised _ => true
         | Returned _ => false
         end
  end.

(** A file that opens (at once, or with the empty password) and has
    exactly one page, whose text is [text]. *)
Definition single_page_document (w : World) (path text : string) : Prop :=
  exists reader page,
    disk w path = Some (Pdf reader) /\
    (PyPDF2.is_encrypted reader = false \/
     PyPDF2.decrypt reader "" = Returned tt) /\
    PyPDF2.pages reader = Returned [page] /\
    PyPDF2.extract_text page = Returned text.

(** An extraction failure is terminal: a record with [error] has no
    summary, no classification and no indexing status. *)
Definition error_is_terminal (r : gmap string Py.value) : Prop :=
  populated "error" r ->
  ~ populated "summary" r /\ ~ populated "classification" r /\
  ~ populated "indexing_status" r.

(** A record without [error] has a summary and a classification. *)
Definition derived_unless_error (r : gmap string Py.value) : Prop :=
  ~ populated "error" r ->
  populated "summary" r /\ populated "classification" r.

(** The fields [process_pdf_document] derives from the extracted [text] and
    [metadata]. *)
Definition derived_fields (pdf_path text : string)
    (metadata r : gmap string Py.value) : Prop :=
  r !! "error" = None /\
  r !! "file_path" = Some (Py.Str pdf_path) /\
  r !! "metadata" = Some (Py.Dict metadata) /\
  r !! "extracted_text_snippet" =
    Some (Py.Str (if Py.truthy text then Py.slice_to text 200 +:+ "..." else "N/A")) /\
  r !! "full_text_char_count" =
    Some (Py.Int (if Py.truthy text then Py.len text else 0)) /\
  r !! "summary" = Some (Py.Str (_summarize_text text default_max_chars)) /\
  r !! "classification" = Some (Py.Str (_classify_document text)).

(** The three constructor calls of [initialize_lightrag], in the order it
    makes them, all succeed in world [w]. *)
Definition constructors_succeed (w : World) : bool :=
  match constructor_raises w (constructed w) OpenAIEmbedder,
        constructor_raises w (S (constructed w)) OpenAIChatLLM,
        constructor_raises w (S (S (constructed w))) LightRAG_engine with
  | None, None, None => true
  | _, _, _ => false
  end.

(** The file opens, at once or with the empty password. *)
Definition opens_unlocked (reader : PyPDF2.PdfReader) : Prop :=
  PyPDF2.is_encrypted reader = false \/
  exists u, PyPDF2.decrypt reader "" = Returned u.

(** The keys [extract_metadata_from_pdf] fills for a document that has
    metadata. *)
Definition metadata_keys : gset string :=
  {[ "Title"; "Author"; "Subject"; "Creator"; "Producer";
     "CreationDate"; "ModDate"; "PageCount" ]}.

(** ** More sample files *)

Module Scenario.

Definition page (text : string) : PyPDF2.PageObject :=
  {| PyPDF2.extract_text := Returned text |}.

Definition torn_page : PyPDF2.PageObject :=
  {| PyPDF2.extract_text := Raised (OtherException "bad content stream") |}.

(** Three pages, the second without text. *)
Definition report_reader : PyPDF2.PdfReader :=
  {| PyPDF2.is_encrypted := true;
     PyPDF2.decrypt := fun _ => Returned tt;
     PyPDF2.pages := Returned [page "Page one"; page ""; page "Page two"];
     PyPDF2.metadata := Returned None |}.

(** The page tree reads, the second page does not. *)
Definition torn_reader : PyPDF2.PdfReader :=
  {| PyPDF2.is_encrypted := false;
     PyPDF2.decrypt := fun _ => Returned tt;
     PyPDF2.pages := Returned [page "Hello World"; torn_page];
     PyPDF2.metadata := Returned (Some Sample.hello_info) |}.

(** The pages read, the document information does not. *)
Definition badinfo_reader : PyPDF2.PdfReader :=
  {| PyPDF2.is_encrypted := false;
     PyPDF2.decrypt := fun _ => Returned tt;
     PyPDF2.pages := Returned [page "Hello World"];
     PyPDF2.metadata := Raised (PdfReadError "Invalid /Info object") |}.

Definition files (path : string) : option FileContent :=
  if String.eqb path "report.pdf" then Some (Pdf report_reader)
  else if String.eqb path "torn.pdf" then Some (Pdf torn_reader)
  else if String.eqb path "badinfo.pdf" then Some (Pdf badinfo_reader)
  else Sample.files path.

(** "archive" is a directory, so nothing below it or at it can be opened. *)
Definition open_errors (path : string) : option exn :=
  if String.eqb path "archive"
  then Some (OtherException "[Errno 21] Is a directory: 'archive'")
  else if String.eqb path "hello.pdf/x.pdf"
  then Some (OtherException "[Errno 20] Not a directory: 'hello.pdf/x.pdf'")
  else None.

Definition world : World :=
  {| disk := files;
     open_raises := open_errors;
     load_dotenv_raises := None;
     environ := fun name =>
       if String.eqb name "OPENAI_API_KEY" then Some "sk-env" else None;
     makedirs_raises := fun _ => None;
     constructor_raises := fun _ _ => None;
     constructed := 0;
     log := [] |}.

(** A world where no directory can be created. *)
Definition readonly_world : World :=
  {| disk := files;
     open_raises := fun _ => None;
     load_dotenv_raises := None;
     environ := fun _ => None;
     makedirs_raises := fun _ => Some (OtherException "Read-only file system");
     constructor_raises := fun _ _ => None;
     constructed := 0;
     log := [] |}.

End Scenario.

(** ** Facts about Python strings *)

Section PyFacts.

Lemma app_cons (c : ascii) (a b : string) :
  String c a +:+ b = String c (a +:+ b).
Proof. reflexivity. Qed.

Lemma app_nil_l (a : string) : "" +:+ a = a.
Proof. reflexivity. Qed.

Lemma truthy_nonempty (s : string) : Py.truthy s = true <-> s <> "".
Proof. destruct s; simpl; split; congruence. Qed.

Lemma substring_all (s : string) (n : nat) :
  (String.length s <= n)%nat -> String.substring 0 n s = s.
Proof.
  revert n. induction s as [|c s IH]; intros [|n] Hn; simpl in *; try reflexivity.
  - lia.
  - f_equal. apply IH. lia.
Qed.

Lemma substring_split (s : string) (n : nat) :
  s = String.substring 0 n s +:+ String.substring n (String.length s - n) s.
Proof.
  revert n. induction s as [|c s IH]; intros [|n]; simpl.
  - reflexivity.
  - reflexivity.
  - change (String c s = String c (String.substring 0 (String.length s) s)).
    rewrite substring_all by lia. reflexivity.
  - change (String c s = String c (String.substring 0 n s +:+
               String.substring n (String.length s - n) s)).
    f_equal. apply IH.
Qed.

Lemma substring_length (s : string) (n : nat) :
  (n <= String.length s)%nat -> String.length (String.substring 0 n s) = n.
Proof.
  revert n. induction s as [|c s IH]; intros [|n] Hn; simpl in *; try reflexivity.
  - lia.
  - f_equal. apply IH. lia.
Qed.

Lemma slice_to_nonneg (s : string) (n : Z) :
  0 <= n -> Py.slice_to s n = String.substring 0 (Z.to_nat n) s.
Proof.
  intros Hn. unfold Py.slice_to.
  destruct (Z.ltb_spec n 0); [lia | reflexivity].
Qed.

Lemma startswith_app (p rest : string) : Py.startswith (p +:+ rest) p = true.
Proof.
  unfold Py.startswith. induction p as [|c p IH].
  - rewrite app_nil_l. destruct rest; reflexivity.
  - rewrite app_cons. simpl.
    destruct (ascii_dec c c); [exact IH | congruence].
Qed.

Lemma length_app (a b : string) :
  String.length (a +:+ b) = (String.length a + String.length b)%nat.
Proof.
  induction a as [|c a IH]; [reflexivity |].
  rewrite app_cons. simpl. now rewrite IH.
Qed.

Lemma substring_drop_app (a b : string) :
  String.substring (String.length a) (String.length b) (a +:+ b) = b.
Proof.
  induction a as [|c a IH].
  - rewrite app_nil_l. apply substring_all. simpl. lia.
  - rewrite app_cons. exact IH.
Qed.

Lemma endswith_app (a suffix : string) : Py.endswith (a +:+ suffix) suffix = true.
Proof.
  unfold Py.endswith. rewrite length_app.
  apply andb_true_intro. split.
  - apply Nat.leb_le. lia.
  - replace (String.length a + String.length suffix - String.length suffix)%nat
      with (String.length a) by lia.
    rewrite substring_drop_app. apply String.eqb_refl.
Qed.

Lemma app_assoc_str (a b c : string) : (a +:+ b) +:+ c = a +:+ (b +:+ c).
Proof.
  induction a as [|x a IH]; [reflexivity |].
  rewrite !app_cons. now rewrite IH.
Qed.

End PyFacts.


(** ** Running monadic code *)

Section MonadFacts.
Context {A B : Type}.

Lemma bind_returned (m : M A) (k : A -> M B) (w w' : World) (a : A) :
  m w = (Returned a, w') -> (m ≫= k) w = k a w'.
Proof. intros H. unfold mbind, M_bind. now rewrite H. Qed.

Lemma bind_raised (m : M A) (k : A -> M B) (w w' : World) (e : exn) :
  m w = (Raised e, w') -> (m ≫= k) w = (Raised e, w').
Proof. intros H. unfold mbind, M_bind. now rewrite H. Qed.

Lemma try_except_returned (m : M A) (h : exn -> M A) (w w' : World) (a : A) :
  m w = (Returned a, w') -> try_except m h w = (Returned a, w').
Proof. intros H. unfold try_except. now rewrite H. Qed.

Lemma try_except_raised (m : M A) (h : exn -> M A) (w w' : World) (e : exn) :
  m w = (Raised e, w') -> try_except m h w = h e w'.
Proof. intros H. unfold try_except. now rewrite H. Qed.

End MonadFacts.

Ltac run :=
  unfold result, mbind, M_bind, mret, M_ret, try_except, raise, lift;
  simpl.

(** ** The derivation stage *)

(** C7: on empty input, [_summarize_text] (for any [max_chars]) and
    [_classify_document] return their "no input" markers, and neither marker
    is the empty string. *)
Theorem no_input_markers (max_chars : Z) :
  _summarize_text "" max_chars = "No text provided for summarization." /\
  _classify_document "" = "No text provided for classification." /\
  _summarize_text "" max_chars <> "" /\
  _classify_document "" <> "".
Proof. repeat split; discriminate. Qed.

(** C5 as stated fails: the summary of a short text is not the text. *)
Lemma short_summary_is_not_input :
  "Hello World" <> "" /\
  Py.len "Hello World" <= 500 /\
  _summarize_text "Hello World" 500 <> "Hello World".
Proof. repeat split; [discriminate | discriminate | discriminate]. Qed.

(** C5, amended: for a non-empty text no longer than [max_chars], the summary
    is the placeholder marker followed by the whole text, with no truncation
    marker. *)
Theorem summarize_short (t : string) (max_chars : Z) :
  t <> "" ->
  Py.len t <= max_chars ->
  _summarize_text t max_chars = "[Placeholder Summary]: " +:+ t.
Proof.
  intros Hne Hlen. unfold _summarize_text.
  apply truthy_nonempty in Hne. rewrite Hne. simpl.
  destruct (Z.gtb_spec (Py.len t) max_chars); [lia | reflexivity].
Qed.

Lemma summarize_short_witness :
  _summarize_text "Hello World" 500 = "[Placeholder Summary]: Hello World".
Proof.
  apply (summarize_short "Hello World" 500); [discriminate | discriminate].
Defined.

(** C6 as stated fails: the summary of a long text does not start with the
    first [max_chars] characters of the text. *)
Lemma long_summary_does_not_start_with_input :
  "abcdef" <> "" /\
  Py.len "abcdef" > 2 /\
  Py.startswith (_summarize_text "abcdef" 2) (Py.slice_to "abcdef" 2) = false.
Proof. repeat split; discriminate. Qed.

(** C6, amended: for a non-empty text longer than [max_chars >= 0], the
    summary is the placeholder marker, then the first [max_chars] characters
    of the text, then the truncation marker ["..."]; so it ends with the
    truncation marker, and what follows the placeholder marker starts with
    those [max_chars] characters. *)
Theorem summarize_long (t : string) (max_chars : Z) :
  t <> "" ->
  0 <= max_chars < Py.len t ->
  let head := String.substring 0 (Z.to_nat max_chars) t in
  _summarize_text t max_chars = "[Placeholder Summary]: " +:+ head +:+ "..." /\
  Py.len head = max_chars /\
  Py.startswith t head = true /\
  Py.startswith (_summarize_text t max_chars) "[Placeholder Summary]: " = true /\
  Py.endswith (_summarize_text t max_chars) "..." = true.
Proof.
  intros Hne [Hmin Hlen] head.
  assert (Hsum : _summarize_text t max_chars
                 = "[Placeholder Summary]: " +:+ head +:+ "...").
  { unfold _summarize_text. apply truthy_nonempty in Hne. rewrite Hne. simpl.
    destruct (Z.gtb_spec (Py.len t) max_chars); [| lia].
    now rewrite slice_to_nonneg. }
  split; [exact Hsum |].
  split.
  { unfold Py.len, head. rewrite substring_length; unfold Py.len in Hlen; lia. }
  split.
  { rewrite (substring_split t (Z.to_nat max_chars)) at 1.
    apply startswith_app. }
  rewrite Hsum. split.
  - apply startswith_app.
  - rewrite <- app_assoc_str. apply endswith_app.
Qed.

(** A negative [max_chars] cuts from the end, as Python slices do. *)
Example summarize_negative_bound :
  _summarize_text "abcdef" (-2) = "[Placeholder Summary]: abcd..." /\
  _summarize_text "abcdef" (-9) = "[Placeholder Summary]: ...".
Proof. split; reflexivity. Qed.

Lemma summarize_long_witness :
  _summarize_text "abcdef" 2 = "[Placeholder Summary]: ab...".
Proof.
  apply (summarize_long "abcdef" 2); [discriminate | split; [lia | reflexivity]].
Defined.

(** ** pdf_processor *)

Section PdfProcessorFacts.
Import pdf_processor.

Lemma decrypt_with_empty_password_returns (reader : PyPDF2.PdfReader) (w : World) :
  decrypt_with_empty_password reader w =
  (Returned (negb (PyPDF2.is_encrypted reader &&
                   match PyPDF2.decrypt reader "" with
                   | Raised _ => true
                   | Returned _ => false
                   end)), w).
Proof.
  unfold decrypt_with_empty_password.
  destruct (PyPDF2.is_encrypted reader); [| reflexivity].
  run. destruct (PyPDF2.decrypt reader ""); reflexivity.
Qed.

Lemma page_texts_world (pages : list PyPDF2.PageObject) (parts : list string)
      (w : World) :
  snd (page_texts pages parts w) = w.
Proof.
  revert parts. induction pages as [|page rest IH]; intros parts; [reflexivity |].
  simpl. run. destruct (PyPDF2.extract_text page) as [t|e]; [apply IH | reflexivity].
Qed.

(** The handlers of [extract_text_from_pdf] turn every exception into the
    empty string, so the function always returns; with the default method it
    opens the file exactly once. *)
Lemma extract_text_from_pdf_returns (pdf_path : string) (w : World) :
  exists text,
    extract_text_from_pdf pdf_path "pypdf2" w =
    (Returned text, record (Opened pdf_path) w).
Proof.
  unfold extract_text_from_pdf. rewrite String.eqb_refl.
  unfold try_except, mbind, M_bind, open_rb. cbv beta.
  destruct (disk w pdf_path) as [[e|reader]|].
  - simpl. destruct e; eexists; reflexivity.
  - unfold PdfReader, mret, M_ret.
    rewrite decrypt_with_empty_password_returns.
    destruct (negb _).
    + unfold lift. cbv beta. destruct (PyPDF2.pages reader) as [[|page rest]|e].
      * eexists; reflexivity.
      * pose proof (page_texts_world (page :: rest) [] (record (Opened pdf_path) w)) as Hw.
        destruct (page_texts (page :: rest) [] (record (Opened pdf_path) w)) as [[parts|e] w'].
        -- simpl in Hw. subst w'. eexists; reflexivity.
        -- simpl in Hw. subst w'. destruct e; eexists; reflexivity.
      * destruct e; eexists; reflexivity.
    + eexists; reflexivity.
  - destruct (open_exception w pdf_path); eexists; reflexivity.
Qed.

Lemma extract_text_from_pdf_unreadable (pdf_path : string) (w : World) :
  unreadable w pdf_path = true ->
  extract_text_from_pdf pdf_path "pypdf2" w =
  (Returned "", record (Opened pdf_path) w).
Proof.
  unfold unreadable, extract_text_from_pdf. rewrite String.eqb_refl.
  unfold try_except, mbind, M_bind, open_rb. cbv beta.
  destruct (disk w pdf_path) as [[e|reader]|]; intros Hbad.
  - simpl. destruct e; reflexivity.
  - unfold PdfReader, mret, M_ret.
    rewrite decrypt_with_empty_password_returns.
    destruct (PyPDF2.is_encrypted reader && _); [reflexivity |].
    simpl in Hbad. simpl negb. cbv iota. unfold lift. cbv beta.
    destruct (PyPDF2.pages reader) as [pages|e]; [discriminate |].
    destruct e; reflexivity.
  - destruct (open_exception w pdf_path); reflexivity.
Qed.


(** [extract_metadata_from_pdf] always returns, and opens the file once. *)
Lemma extract_metadata_from_pdf_returns (pdf_path : string) (w : World) :
  exists metadata_dict,
    extract_metadata_from_pdf pdf_path w =
    (Returned metadata_dict, record (Opened pdf_path) w).
Proof.
  unfold extract_metadata_from_pdf.
  unfold try_except, mbind, M_bind, open_rb. cbv beta.
  destruct (disk w pdf_path) as [[e|reader]|].
  - simpl. destruct e; eexists; reflexivity.
  - unfold PdfReader, mret, M_ret.
    rewrite decrypt_with_empty_password_returns.
    destruct (negb _); [| eexists; reflexivity].
    unfold lift. cbv beta.
    destruct (PyPDF2.metadata reader) as [[metadata|]|e].
    + destruct (PyPDF2.truthy metadata);
        (destruct (PyPDF2.pages reader) as [pages|e];
         [eexists; reflexivity | destruct e; eexists; reflexivity]).
    + destruct (PyPDF2.pages reader) as [pages|e];
        [eexists; reflexivity | destruct e; eexists; reflexivity].
    + destruct e; eexists; reflexivity.
  - destruct (open_exception w pdf_path); eexists; reflexivity.
Qed.

Lemma extract_metadata_from_pdf_unreadable (pdf_path : string) (w : World) :
  unreadable w pdf_path = true ->
  exists cause,
    extract_metadata_from_pdf pdf_path w =
    (Returned (error_record cause pdf_path), record (Opened pdf_path) w).
Proof.
  unfold unreadable, extract_metadata_from_pdf.
  unfold try_except, mbind, M_bind, open_rb. cbv beta.
  destruct (disk w pdf_path) as [[e|reader]|]; intros Hbad.
  - simpl. destruct e; eexists; reflexivity.
  - unfold PdfReader, mret, M_ret.
    rewrite decrypt_with_empty_password_returns.
    destruct (PyPDF2.is_encrypted reader && _); [eexists; reflexivity |].
    simpl in Hbad. simpl negb. cbv iota. unfold lift. cbv beta.
    destruct (PyPDF2.pages reader) as [pages|e]; [discriminate |].
    destruct (PyPDF2.metadata reader) as [[metadata|]|e'].
    + destruct (PyPDF2.truthy metadata); destruct e; eexists; reflexivity.
    + destruct e; eexists; reflexivity.
    + destruct e'; eexists; reflexivity.
  - destruct (open_exception w pdf_path); eexists; reflexivity.
Qed.




(** C10: with any method other than "pypdf2", [extract_text_from_pdf] returns
    the empty string and leaves the world as it was: no file is opened.  The
    value returned is the one the default method returns for an unreadable
    file. *)
Theorem other_method_extracts_nothing (pdf_path method : string) (w : World) :
  method <> "pypdf2" ->
  extract_text_from_pdf pdf_path method w = (Returned "", w) /\
  (unreadable w pdf_path = true ->
   result (extract_text_from_pdf pdf_path method) w =
   result (extract_text_from_pdf pdf_path "pypdf2") w).
Proof.
  intros Hne.
  assert (H : extract_text_from_pdf pdf_path method w = (Returned "", w)).
  { unfold extract_text_from_pdf.
    apply String.eqb_neq in Hne. rewrite Hne. reflexivity. }
  split; [exact H |].
  intros Hbad. unfold result.
  now rewrite H, extract_text_from_pdf_unreadable.
Qed.

Lemma other_method_extracts_nothing_witness :
  extract_text_from_pdf "hello.pdf" "unstructured" Sample.world
  = (Returned "", Sample.world).
Proof.
  apply (other_method_extracts_nothing "hello.pdf" "unstructured" Sample.world).
  discriminate.
Defined.

(** Extraction from a one-page document gives the text of the page. *)
Lemma extract_text_from_pdf_single_page (pdf_path text : string) (w : World) :
  single_page_document w pdf_path text ->
  extract_text_from_pdf pdf_path "pypdf2" w =
  (Returned text, record (Opened pdf_path) w).
Proof.
  intros (reader & page & Hdisk & Hopen & Hpages & Htext).
  unfold extract_text_from_pdf. rewrite String.eqb_refl.
  unfold try_except, mbind, M_bind, open_rb. cbv beta. rewrite Hdisk.
  unfold PdfReader, mret, M_ret.
  rewrite decrypt_with_empty_password_returns.
  assert (Hunlocked : negb (PyPDF2.is_encrypted reader &&
                            match PyPDF2.decrypt reader "" with
                            | Raised _ => true
                            | Returned _ => false
                            end) = true).
  { destruct Hopen as [-> | ->]; [reflexivity |].
    now rewrite andb_false_r. }
  rewrite Hunlocked. unfold lift. cbv beta. rewrite Hpages.
  simpl. unfold mbind, M_bind, lift. rewrite Htext.
  destruct text; reflexivity.
Qed.

(** For a path with no file the cause in the error record follows the
    exception [open] raised. *)
Lemma extract_metadata_from_pdf_missing (pdf_path : string) (w : World) :
  disk w pdf_path = None ->
  extract_metadata_from_pdf pdf_path w =
  (Returned
     (error_record
        match open_exception w pdf_path with
        | FileNotFoundError _ => "File not found."
        | PdfReadError pre => "PyPDF2 PdfReadError: " +:+ pre
        | ValueError msg | OtherException msg => "Unexpected error: " +:+ msg
        end pdf_path),
   record (Opened pdf_path) w).
Proof.
  intros Hdisk. unfold extract_metadata_from_pdf.
  unfold try_except, mbind, M_bind, open_rb. cbv beta. rewrite Hdisk.
  destruct (open_exception w pdf_path); reflexivity.
Qed.

End PdfProcessorFacts.

(** ** The agent, for any implementation of the two imported extractors *)

Ltac lookups :=
  unfold populated;
  repeat first
    [ rewrite lookup_insert_eq
    | rewrite lookup_insert_ne by discriminate
    | rewrite lookup_empty ].

Lemma is_Some_None_false {A : Type} : ~ is_Some (@None A).
Proof. intros [x Hx]. discriminate. Qed.

(** Settles one half of the record invariant once the record is known. *)
Ltac invariant :=
  unfold error_is_terminal, derived_unless_error; lookups;
  first
    [ exact is_Some_None_false
    | intros _; repeat split; solve [eauto | exact is_Some_None_false]
    | intros H; exfalso; first [exact (is_Some_None_false H) | apply H; eauto] ].

Section AgentFacts.
Variable extract_text_from_pdf : string -> M string.
Variable extract_metadata_from_pdf : string -> M (gmap string Py.value).

Abbreviation process := (indexing_agent.process_pdf_document
                       extract_text_from_pdf extract_metadata_from_pdf).
Abbreviation aprocess := (indexing_agent.aprocess_pdf_document_and_index
                        extract_text_from_pdf extract_metadata_from_pdf).

(** What [process_pdf_document] returns when an extractor raises. *)
Lemma process_pdf_document_error (pdf_path : string) (w w' : World) (e : exn) :
  (text ← extract_text_from_pdf pdf_path;
   metadata ← extract_metadata_from_pdf pdf_path;
   mret (text, metadata)) w = (Raised e, w') ->
  process pdf_path w =
  (Returned (<["path" := Py.Str pdf_path]> (<["error" := Py.Str (str_exn e)]> ∅)),
   w').
Proof.
  unfold indexing_agent.process_pdf_document. run.
  destruct (extract_text_from_pdf pdf_path w) as [[text|e1] w1].
  - destruct (extract_metadata_from_pdf pdf_path w1) as [[md|e2] w2];
      intros [= <- <-]; reflexivity.
  - intros [= <- <-]. reflexivity.
Qed.

(** The synchronous part always returns a record; the record obeys both
    halves of the invariant and has no indexing status. *)
Lemma process_pdf_document_record (pdf_path : string) (w : World) :
  exists r w',
    process pdf_path w = (Returned r, w') /\
    error_is_terminal r /\ derived_unless_error r /\
    ~ populated "indexing_status" r.
Proof.
  unfold indexing_agent.process_pdf_document. run.
  destruct (extract_text_from_pdf pdf_path w) as [[text|e1] w1].
  - destruct (extract_metadata_from_pdf pdf_path w1) as [[md|e2] w2].
    + eexists _, _. split; [reflexivity | split; [| split]]; invariant.
    + eexists _, _. split; [reflexivity | split; [| split]]; invariant.
  - eexists _, _. split; [reflexivity | split; [| split]]; invariant.
Qed.

(** What [process_pdf_document] returns when both extractors return. *)
Lemma process_pdf_document_success (pdf_path text : string)
      (metadata : gmap string Py.value) (w w1 w2 : World) :
  extract_text_from_pdf pdf_path w = (Returned text, w1) ->
  extract_metadata_from_pdf pdf_path w1 = (Returned metadata, w2) ->
  exists r,
    process pdf_path w = (Returned r, w2) /\
    derived_fields pdf_path text metadata r /\
    r !! "indexing_status" = None.
Proof.
  intros Ht Hm. unfold indexing_agent.process_pdf_document. run.
  rewrite Ht, Hm. eexists. split; [reflexivity |].
  unfold derived_fields. repeat split; lookups; reflexivity.
Qed.

Lemma contains_populated (key : string) (r : gmap string Py.value) :
  Py.contains key r = true <-> populated key r.
Proof. unfold Py.contains, populated. apply bool_decide_eq_true. Qed.

Lemma contains_lookup_None (key : string) (r : gmap string Py.value) :
  r !! key = None -> Py.contains key r = false.
Proof.
  intros H. unfold Py.contains. apply bool_decide_eq_false.
  rewrite H. exact is_Some_None_false.
Qed.

(** Recording the indexing status in a record without [error] keeps the
    invariant and gives the record its one status. *)
Lemma indexing_status_recorded (r : gmap string Py.value) (status : Py.value) :
  ~ populated "error" r ->
  derived_unless_error r ->
  let r' := <["indexing_status" := status]> r in
  error_is_terminal r' /\ derived_unless_error r' /\
  r' !! "indexing_status" = Some status.
Proof.
  intros Hno Hder r'. subst r'. split; [| split].
  - intros Herr. exfalso. apply Hno. revert Herr.
    unfold populated. now rewrite lookup_insert_ne by discriminate.
  - intros _. unfold populated.
    rewrite !(lookup_insert_ne _ "indexing_status") by discriminate.
    exact (Hder Hno).
  - apply lookup_insert_eq.
Qed.

(** Every record the full pipeline returns obeys the invariant, and has an
    indexing status unless it is an error record; [None] is returned only on
    an agent without engine. *)
Lemma aprocess_pdf_document_and_index_record
      (self : IndexingAgent) (pdf_path : string) (w : World) :
  match result (aprocess self pdf_path) w with
  | Returned (Some r) =>
      error_is_terminal r /\ derived_unless_error r /\
      (~ populated "error" r -> populated "indexing_status" r)
  | Returned None => lightrag_instance self = None
  | Raised _ => True
  end.
Proof.
  unfold indexing_agent.aprocess_pdf_document_and_index, result.
  destruct (lightrag_instance self) as [engine|]; [| reflexivity].
  destruct (process_pdf_document_record pdf_path w)
    as (r & w' & Hrun & Hterm & Hder & Hnostatus).
  rewrite (bind_returned _ _ _ _ _ Hrun).
  destruct (Py.contains "error" r) eqn:Herr.
  - simpl. split; [exact Hterm | split; [exact Hder |]].
    intros Hno. exfalso. apply Hno. now apply contains_populated.
  - assert (Hno : ~ populated "error" r).
    { intros H. apply contains_populated in H. congruence. }
    unfold mbind, M_bind.
    destruct (extract_text_from_pdf pdf_path w') as [[full_text|e] w''];
      [| exact I].
    destruct (Py.truthy full_text); simpl;
      (match goal with
       | |- error_is_terminal (<[_ := ?status]> _) /\ _ =>
           destruct (indexing_status_recorded r status Hno Hder) as (H1 & H2 & H3)
       end;
       split; [exact H1 | split; [exact H2 |]];
       intros _; unfold populated; rewrite H3; eauto).
Qed.

Lemma derived_fields_with_status (pdf_path text : string)
      (metadata r : gmap string Py.value) (status : Py.value) :
  derived_fields pdf_path text metadata r ->
  derived_fields pdf_path text metadata (<["indexing_status" := status]> r).
Proof.
  unfold derived_fields.
  rewrite !(lookup_insert_ne _ "indexing_status") by discriminate. tauto.
Qed.

(** The full pipeline on an agent with an engine, when the extractors
    return: the derived fields plus the status of the simulated insertion. *)
Lemma aprocess_pdf_document_and_index_success
      (self : IndexingAgent) (pdf_path text full_text : string)
      (metadata : gmap string Py.value) (w w1 w2 w3 : World) :
  is_Some (lightrag_instance self) ->
  extract_text_from_pdf pdf_path w = (Returned text, w1) ->
  extract_metadata_from_pdf pdf_path w1 = (Returned metadata, w2) ->
  extract_text_from_pdf pdf_path w2 = (Returned full_text, w3) ->
  exists r,
    aprocess self pdf_path w = (Returned (Some r), w3) /\
    derived_fields pdf_path text metadata r /\
    r !! "indexing_status" =
      Some (Py.Str (if Py.truthy full_text
                    then "Simulated as successfully indexed by LightRAG"
                    else "Skipped (no text)")).
Proof.
  intros [engine Hready] Ht Hm Hfull.
  destruct (process_pdf_document_success _ _ _ _ _ _ Ht Hm)
    as (r & Hrun & Hfields & Hnone).
  unfold indexing_agent.aprocess_pdf_document_and_index. rewrite Hready.
  rewrite (bind_returned _ _ _ _ _ Hrun).
  rewrite (contains_lookup_None "error" r) by apply Hfields.
  rewrite (bind_returned _ _ _ _ _ Hfull).
  destruct (Py.truthy full_text); simpl;
    (eexists; split; [reflexivity |]; split;
     [now apply derived_fields_with_status | apply lookup_insert_eq]).
Qed.

End AgentFacts.

(** ** The agent linked with pdf_processor *)

Section LinkedFacts.

Lemma extract_text_returns (pdf_path : string) (w : World) :
  exists text,
    extract_text pdf_path w = (Returned text, record (Opened pdf_path) w).
Proof. apply extract_text_from_pdf_returns. Qed.

(** With the extractors of [pdf_processor] the full pipeline never raises. *)
Lemma aprocess_pdf_document_and_index_returns
      (self : IndexingAgent) (pdf_path : string) (w : World) :
  exists o, result (aprocess_pdf_document_and_index self pdf_path) w = Returned o.
Proof.
  unfold aprocess_pdf_document_and_index, result.
  destruct (lightrag_instance self) as [engine|] eqn:Hself.
  - destruct (extract_text_returns pdf_path w) as [text Ht].
    destruct (extract_metadata_from_pdf_returns pdf_path
                (record (Opened pdf_path) w)) as [metadata Hm].
    destruct (extract_text_returns pdf_path
                (record (Opened pdf_path) (record (Opened pdf_path) w)))
      as [full_text Hfull].
    destruct (aprocess_pdf_document_and_index_success
                _ _ self _ _ _ _ _ _ _ _ (mk_is_Some _ _ Hself) Ht Hm Hfull)
      as (r & Hrun & _).
    rewrite Hrun. eauto.
  - unfold indexing_agent.aprocess_pdf_document_and_index. rewrite Hself.
    eexists. reflexivity.
Qed.

(** C1 as stated fails: on a readable document, an agent without engine
    gets no record at all. *)
Lemma uninitialized_agent_gets_no_record :
  single_page_document Sample.world "hello.pdf" "Hello World" /\
  lightrag_instance Sample.fresh_agent = None /\
  ~ exists r,
      result (aprocess_pdf_document_and_index Sample.fresh_agent "hello.pdf")
        Sample.world = Returned (Some r) /\
      populated "indexing_status" r /\
      populated "summary" r /\ populated "classification" r.
Proof.
  split; [| split].
  - exists Sample.hello_reader, Sample.hello_page. repeat split. now left.
  - reflexivity.
  - intros (r & Hrun & _). discriminate Hrun.
Qed.

(** C1, amended: on an agent whose engine is not initialized,
    [aprocess_pdf_document_and_index] returns [None] without raising and
    without touching the world: no file is opened, so neither extraction nor
    derivation runs. *)
Theorem uninitialized_agent_returns_None
        (self : IndexingAgent) (pdf_path : string) (w : World) :
  lightrag_instance self = None ->
  aprocess_pdf_document_and_index self pdf_path w = (Returned None, w).
Proof.
  intros Hself.
  unfold aprocess_pdf_document_and_index,
    indexing_agent.aprocess_pdf_document_and_index.
  now rewrite Hself.
Qed.

Lemma uninitialized_agent_returns_None_witness :
  aprocess_pdf_document_and_index Sample.fresh_agent "hello.pdf" Sample.world
  = (Returned None, Sample.world).
Proof.
  apply (uninitialized_agent_returns_None
           Sample.fresh_agent "hello.pdf" Sample.world).
  reflexivity.
Defined.

(** C2 as stated fails: the record of [process_pdf_document] has no [error]
    and yet no indexing status. *)
Lemma sync_record_has_no_indexing_status :
  exists r,
    result (process_pdf_document "hello.pdf") Sample.world = Returned r /\
    ~ populated "error" r /\
    populated "summary" r /\ populated "classification" r /\
    ~ populated "indexing_status" r.
Proof.
  destruct (process_pdf_document_success
              extract_text pdf_processor.extract_metadata_from_pdf
              "hello.pdf" "Hello World" _ Sample.world _ _
              eq_refl eq_refl)
    as (r & Hrun & Hfields & Hnone).
  exists r. unfold result, process_pdf_document. rewrite Hrun.
  destruct Hfields as (He & _ & _ & _ & _ & Hs & Hc).
  unfold populated. rewrite He, Hs, Hc, Hnone.
  repeat split; eauto using is_Some_None_false.
Qed.

(** C2, amended: whatever the two extractors do, a record with [error] has
    no summary, classification or indexing status, and a record without
    [error] has a summary and a classification; such a record has exactly one
    indexing status when [aprocess_pdf_document_and_index] returns it and
    none when [process_pdf_document] returns it.  [process_pdf_document]
    always returns a record, and with the extractors of [pdf_processor] the
    full pipeline always returns too. *)
Theorem record_invariant
        (extract_text_from_pdf : string -> M string)
        (extract_metadata_from_pdf : string -> M (gmap string Py.value))
        (self : IndexingAgent) (pdf_path : string) (w : World) :
  (exists r w',
     indexing_agent.process_pdf_document
       extract_text_from_pdf extract_metadata_from_pdf pdf_path w
     = (Returned r, w') /\
     error_is_terminal r /\ derived_unless_error r /\
     ~ populated "indexing_status" r) /\
  match result (indexing_agent.aprocess_pdf_document_and_index
                  extract_text_from_pdf extract_metadata_from_pdf
                  self pdf_path) w with
  | Returned (Some r) =>
      error_is_terminal r /\ derived_unless_error r /\
      (~ populated "error" r -> populated "indexing_status" r)
  | Returned None => lightrag_instance self = None
  | Raised _ => True
  end /\
  exists o, result (aprocess_pdf_document_and_index self pdf_path) w = Returned o.
Proof.
  split; [| split].
  - apply process_pdf_document_record.
  - apply aprocess_pdf_document_and_index_record.
  - apply aprocess_pdf_document_and_index_returns.
Qed.

(** The [except] branch of [process_pdf_document] is live for an extractor
    that raises: the record then holds [error] and [path] only. *)
Example raising_extractor_gives_error_record :
  exists r,
    result (indexing_agent.process_pdf_document
              (fun _ => raise (OtherException "disk on fire"))
              pdf_processor.extract_metadata_from_pdf "hello.pdf")
      Sample.world = Returned r /\
    r !! "error" = Some (Py.Str "disk on fire") /\
    r !! "path" = Some (Py.Str "hello.pdf") /\
    r !! "summary" = None.
Proof. eexists. split; [reflexivity |]. repeat split. Qed.

(** C3 as stated fails: for a path with no file, the record has no [error]
    and does have a summary and a classification. *)
Lemma missing_file_record_has_no_error :
  disk Sample.world "nope.pdf" = None /\
  exists r,
    result (process_pdf_document "nope.pdf") Sample.world = Returned r /\
    ~ populated "error" r /\
    populated "summary" r /\ populated "classification" r.
Proof.
  split; [reflexivity |].
  destruct (process_pdf_document_success
              extract_text pdf_processor.extract_metadata_from_pdf
              "nope.pdf" "" _ Sample.world _ _ eq_refl eq_refl)
    as (r & Hrun & Hfields & Hnone).
  exists r. unfold result, process_pdf_document. rewrite Hrun.
  destruct Hfields as (He & _ & _ & _ & _ & Hs & Hc).
  unfold populated. rewrite He, Hs, Hc.
  repeat split; eauto using is_Some_None_false.
Qed.

(** C3, amended: for a path with no file, [process_pdf_document] returns a
    record without [error]: the path is in [file_path], the cause is inside
    [metadata] as an error record that holds the path, the snippet is "N/A",
    the length is 0, summary and classification are the "no input" markers,
    and there is no indexing status.  The cause is "File not found." when
    [open] raises [FileNotFoundError], and "Unexpected error: " followed by
    the message when it raises another error (a NUL character in the path, a
    path below a regular file, a directory). *)
Theorem missing_file_record (pdf_path : string) (w : World) :
  disk w pdf_path = None ->
  exists r cause,
    result (process_pdf_document pdf_path) w = Returned r /\
    r !! "error" = None /\
    r !! "file_path" = Some (Py.Str pdf_path) /\
    r !! "metadata" =
      Some (Py.Dict (pdf_processor.error_record cause pdf_path)) /\
    r !! "extracted_text_snippet" = Some (Py.Str "N/A") /\
    r !! "full_text_char_count" = Some (Py.Int 0) /\
    r !! "summary" = Some (Py.Str "No text provided for summarization.") /\
    r !! "classification" = Some (Py.Str "No text provided for classification.") /\
    r !! "indexing_status" = None /\
    (forall msg, open_exception w pdf_path = FileNotFoundError msg ->
       cause = "File not found.") /\
    (forall msg,
       open_exception w pdf_path = ValueError msg \/
       open_exception w pdf_path = OtherException msg ->
       cause = "Unexpected error: " +:+ msg).
Proof.
  intros Hdisk.
  assert (Ht : extract_text pdf_path w
               = (Returned "", record (Opened pdf_path) w)).
  { apply extract_text_from_pdf_unreadable. unfold unreadable. now rewrite Hdisk. }
  assert (Hm := extract_metadata_from_pdf_missing pdf_path
                  (record (Opened pdf_path) w) Hdisk).
  destruct (process_pdf_document_success _ _ _ _ _ _ _ _ Ht Hm)
    as (r & Hrun & Hfields & Hnone).
  eexists r, _. unfold result, process_pdf_document. rewrite Hrun.
  destruct Hfields as (He & Hp & Hmd & Hsn & Hn & Hs & Hc).
  split; [reflexivity |]. split; [exact He |]. split; [exact Hp |].
  split; [exact Hmd |]. split; [exact Hsn |]. split; [exact Hn |].
  split; [exact Hs |]. split; [exact Hc |]. split; [exact Hnone |].
  change (open_exception (record (Opened pdf_path) w) pdf_path)
    with (open_exception w pdf_path).
  split.
  - intros msg ->. reflexivity.
  - intros msg [-> | ->]; reflexivity.
Qed.

Lemma missing_file_record_witness :
  exists r cause,
    result (process_pdf_document "nope.pdf") Sample.world = Returned r /\
    r !! "error" = None /\
    r !! "file_path" = Some (Py.Str "nope.pdf") /\
    r !! "metadata" =
      Some (Py.Dict (pdf_processor.error_record cause "nope.pdf")) /\
    r !! "extracted_text_snippet" = Some (Py.Str "N/A") /\
    r !! "full_text_char_count" = Some (Py.Int 0) /\
    r !! "summary" = Some (Py.Str "No text provided for summarization.") /\
    r !! "classification" = Some (Py.Str "No text provided for classification.") /\
    r !! "indexing_status" = None /\
    (forall msg, open_exception Sample.world "nope.pdf" = FileNotFoundError msg ->
       cause = "File not found.") /\
    (forall msg,
       open_exception Sample.world "nope.pdf" = ValueError msg \/
       open_exception Sample.world "nope.pdf" = OtherException msg ->
       cause = "Unexpected error: " +:+ msg).
Proof.
  apply (missing_file_record "nope.pdf" Sample.world). reflexivity.
Defined.

(** A directory cannot be opened either; the cause is then the message of
    the error [open] raised. *)
Example directory_is_an_unexpected_error :
  disk Scenario.world "archive" = None /\
  exists r,
    result (process_pdf_document "archive") Scenario.world = Returned r /\
    r !! "error" = None /\
    r !! "metadata" =
      Some (Py.Dict (pdf_processor.error_record
                       "Unexpected error: [Errno 21] Is a directory: 'archive'"
                       "archive")).
Proof.
  split; [reflexivity |].
  destruct (process_pdf_document_success
              extract_text pdf_processor.extract_metadata_from_pdf
              "archive" "" _ Scenario.world _ _ eq_refl eq_refl)
    as (r & Hrun & Hfields & _).
  exists r. unfold result, process_pdf_document. rewrite Hrun.
  destruct Hfields as (He & _ & Hmd & _).
  split; [reflexivity |]. split; [exact He |]. exact Hmd.
Qed.

(** C4 as stated fails: the snippet of "Hello World" is not "Hello World". *)
Lemma hello_world_snippet_has_ellipsis :
  single_page_document Sample.world "hello.pdf" "Hello World" /\
  is_Some (lightrag_instance Sample.ready_agent) /\
  exists r,
    result (aprocess_pdf_document_and_index Sample.ready_agent "hello.pdf")
      Sample.world = Returned (Some r) /\
    r !! "extracted_text_snippet" <> Some (Py.Str "Hello World").
Proof.
  split; [| split].
  - exists Sample.hello_reader, Sample.hello_page. repeat split. now left.
  - eexists. reflexivity.
  - destruct (aprocess_pdf_document_and_index_success
                extract_text pdf_processor.extract_metadata_from_pdf
                Sample.ready_agent "hello.pdf" "Hello World" "Hello World"
                _ Sample.world _ _ _
                (mk_is_Some _ _ eq_refl) eq_refl eq_refl eq_refl)
      as (r & Hrun & Hfields & Hstatus).
    exists r. unfold result, aprocess_pdf_document_and_index. rewrite Hrun.
    split; [reflexivity |].
    destruct Hfields as (_ & _ & _ & Hsn & _). rewrite Hsn. discriminate.
Qed.

(** C4, amended: for a one-page document whose text is "Hello World" and an
    agent with an engine, the full pipeline returns a record whose length is
    11, whose snippet is "Hello World...", whose summary and classification
    carry their placeholder markers, and whose indexing status says the
    content was (in simulation) indexed. *)
Theorem hello_world_end_to_end
        (self : IndexingAgent) (pdf_path : string) (w : World) :
  single_page_document w pdf_path "Hello World" ->
  is_Some (lightrag_instance self) ->
  exists r,
    result (aprocess_pdf_document_and_index self pdf_path) w = Returned (Some r) /\
    r !! "error" = None /\
    r !! "full_text_char_count" = Some (Py.Int 11) /\
    r !! "extracted_text_snippet" = Some (Py.Str "Hello World...") /\
    r !! "summary" = Some (Py.Str "[Placeholder Summary]: Hello World") /\
    r !! "classification" =
      Some (Py.Str "[Placeholder Classification]: General Legal Document") /\
    r !! "indexing_status" =
      Some (Py.Str "Simulated as successfully indexed by LightRAG").
Proof.
  intros Hdoc Hready.
  assert (Ht := extract_text_from_pdf_single_page _ _ w Hdoc).
  destruct (extract_metadata_from_pdf_returns pdf_path
              (record (Opened pdf_path) w)) as [metadata Hm].
  assert (Hfull := extract_text_from_pdf_single_page _ _
            (record (Opened pdf_path) (record (Opened pdf_path) w)) Hdoc).
  destruct (aprocess_pdf_document_and_index_success
              extract_text pdf_processor.extract_metadata_from_pdf
              self _ _ _ _ _ _ _ _ Hready Ht Hm Hfull)
    as (r & Hrun & Hfields & Hstatus).
  exists r. unfold result, aprocess_pdf_document_and_index. rewrite Hrun.
  destruct Hfields as (He & _ & _ & Hsn & Hn & Hs & Hc).
  repeat split; assumption.
Qed.

Lemma hello_world_end_to_end_witness :
  exists r,
    result (aprocess_pdf_document_and_index Sample.ready_agent "hello.pdf")
      Sample.world = Returned (Some r) /\
    r !! "error" = None /\
    r !! "full_text_char_count" = Some (Py.Int 11) /\
    r !! "extracted_text_snippet" = Some (Py.Str "Hello World...") /\
    r !! "summary" = Some (Py.Str "[Placeholder Summary]: Hello World") /\
    r !! "classification" =
      Some (Py.Str "[Placeholder Classification]: General Legal Document") /\
    r !! "indexing_status" =
      Some (Py.Str "Simulated as successfully indexed by LightRAG").
Proof.
  apply (hello_world_end_to_end Sample.ready_agent "hello.pdf" Sample.world).
  - exists Sample.hello_reader, Sample.hello_page.
    split; [reflexivity |]. split; [left; reflexivity |].
    split; reflexivity.
  - exists {| oid := 2; working_dir := default_working_dir;
              embedder_model := "text-embedding-ada-002";
              llm_model := "gpt-4o-mini" |}.
    reflexivity.
Defined.

End LinkedFacts.

(** ** The engine handle *)

Section HandleFacts.

(** [initialize_lightrag] returns unless [os.makedirs] raises; it always runs
    the constructors, whatever [self.lightrag_instance] holds.  The handle is
    then a new engine, or [None] when a constructor raised. *)
Lemma initialize_lightrag_runs (self : IndexingAgent) (dir : string) (w : World) :
  makedirs_raises w dir = None ->
  exists self' w',
    initialize_lightrag self dir w = (Returned self', w') /\
    api_key self' = api_key self /\
    makedirs_raises w' = makedirs_raises w /\
    (constructed w < constructed w')%nat /\
    (lightrag_instance self' = None \/
     exists engine,
       lightrag_instance self' = Some engine /\
       working_dir engine = dir /\
       (constructed w <= oid engine < constructed w')%nat).
Proof.
  intros Hdir. unfold initialize_lightrag, os_makedirs.
  unfold mbind, M_bind, try_except, construct, mret, M_ret. cbv beta.
  rewrite Hdir. unfold record, count_constructor. simpl.
  destruct (constructor_raises w (constructed w) OpenAIEmbedder) as [e|]; simpl.
  { eexists _, _. split; [reflexivity |]. simpl. repeat split; [lia | now left]. }
  destruct (constructor_raises w (S (constructed w)) OpenAIChatLLM) as [e|]; simpl.
  { eexists _, _. split; [reflexivity |]. simpl. repeat split; [lia | now left]. }
  destruct (constructor_raises w (S (S (constructed w))) LightRAG_engine) as [e|];
    simpl.
  { eexists _, _. split; [reflexivity |]. simpl. repeat split; [lia | now left]. }
  eexists _, _. split; [reflexivity |]. simpl. repeat split; [lia |].
  right. eexists. split; [reflexivity |]. simpl. repeat split; lia.
Qed.

Lemma initialize_lightrag_returned (self self' : IndexingAgent) (dir : string)
      (w w' : World) :
  initialize_lightrag self dir w = (Returned self', w') ->
  makedirs_raises w dir = None.
Proof.
  unfold initialize_lightrag, os_makedirs, mbind, M_bind. cbv beta.
  destruct (makedirs_raises w dir) as [e|]; [discriminate | reflexivity].
Qed.

(** A new agent has no engine. *)
Lemma init_leaves_engine_unset (openai_api_key : option string)
      (self : IndexingAgent) (w w' : World) :
  __init__ openai_api_key w = (Returned self, w') ->
  lightrag_instance self = None.
Proof.
  unfold __init__, load_dotenv, os_getenv, construct.
  unfold mbind, M_bind, mret, M_ret, raise. cbv beta.
  destruct (load_dotenv_raises w) as [e|]; [discriminate |].
  destruct openai_api_key as [[|c k]|]; cbn [Py.truthy];
    try (destruct (environ w "OPENAI_API_KEY") as [[|c' k']|]; cbn [Py.truthy]);
    try (intros H; discriminate H);
    (destruct (constructor_raises w (constructed w) OpenAI_client) as [e|];
     intros H; [discriminate H | injection H as <- <-; reflexivity]).
Qed.

(** C9 as stated fails: a second call constructs a second engine, and when
    that construction fails the handle that was ready is lost. *)
Lemma second_initialization_changes_handle :
  (exists a1 w1 a2 w2 engine1 engine2,
     initialize_lightrag Sample.fresh_agent default_working_dir Sample.world
     = (Returned a1, w1) /\
     lightrag_instance a1 = Some engine1 /\
     initialize_lightrag a1 default_working_dir w1 = (Returned a2, w2) /\
     lightrag_instance a2 = Some engine2 /\
     oid engine1 = 2%nat /\ oid engine2 = 5%nat /\
     constructed w1 = 3%nat /\ constructed w2 = 6%nat) /\
  (exists a1 w1 a2 w2,
     initialize_lightrag Sample.fresh_agent default_working_dir
       Sample.flaky_world = (Returned a1, w1) /\
     is_Some (lightrag_instance a1) /\
     initialize_lightrag a1 default_working_dir w1 = (Returned a2, w2) /\
     lightrag_instance a2 = None).
Proof.
  split.
  - set (w0 := Sample.world).
    set (w1 := snd (initialize_lightrag Sample.fresh_agent default_working_dir w0)).
    set (run2 := initialize_lightrag Sample.ready_agent default_working_dir w1).
    exists Sample.ready_agent, w1,
      (set_lightrag_instance Sample.ready_agent
         (Some {| oid := 5; working_dir := default_working_dir;
                  embedder_model := "text-embedding-ada-002";
                  llm_model := "gpt-4o-mini" |})),
      (snd run2).
    eexists _, _.
    split; [apply injective_projections; [vm_compute; reflexivity | reflexivity] |].
    split; [reflexivity |].
    split; [apply injective_projections; [vm_compute; reflexivity | reflexivity] |].
    split; [reflexivity |].
    split; [reflexivity |]. split; [reflexivity |].
    split; vm_compute; reflexivity.
  - set (w0 := Sample.flaky_world).
    set (w1 := snd (initialize_lightrag Sample.fresh_agent default_working_dir w0)).
    set (run2 := initialize_lightrag Sample.ready_agent default_working_dir w1).
    exists Sample.ready_agent, w1,
      (set_lightrag_instance Sample.ready_agent None), (snd run2).
    split; [apply injective_projections; [vm_compute; reflexivity | reflexivity] |].
    split; [eexists; reflexivity |].
    split; [apply injective_projections; [vm_compute; reflexivity | reflexivity] |].
    reflexivity.
Qed.

(** C9, amended: a second call of [initialize_lightrag], after a first call
    that left an engine in the handle, runs the constructors again; the handle
    then holds a newly constructed engine, distinct from the first, or is
    reset to [None] when that construction fails. *)
Theorem second_initialization_reconstructs
        (self a1 : IndexingAgent) (dir : string) (w w1 : World)
        (engine1 : LightRAG) :
  initialize_lightrag self dir w = (Returned a1, w1) ->
  lightrag_instance a1 = Some engine1 ->
  exists a2 w2,
    initialize_lightrag a1 dir w1 = (Returned a2, w2) /\
    (constructed w1 < constructed w2)%nat /\
    (lightrag_instance a2 = None \/
     exists engine2,
       lightrag_instance a2 = Some engine2 /\
       working_dir engine2 = dir /\
       (oid engine1 < oid engine2)%nat).
Proof.
  intros Hfirst Hready.
  pose proof (initialize_lightrag_returned _ _ _ _ _ Hfirst) as Hdir.
  destruct (initialize_lightrag_runs self dir w Hdir)
    as (a1' & w1' & Hrun1 & _ & Hdirs & _ & Hengine1).
  rewrite Hfirst in Hrun1. injection Hrun1 as <- <-.
  destruct Hengine1 as [Hnone | (e1 & He1 & _ & Hoid1)]; [congruence |].
  assert (e1 = engine1) by congruence. subst e1.
  assert (Hdir1 : makedirs_raises w1 dir = None) by now rewrite Hdirs.
  destruct (initialize_lightrag_runs a1 dir w1 Hdir1)
    as (a2 & w2 & Hrun2 & _ & _ & Hcount & Hengine2).
  exists a2, w2. split; [exact Hrun2 |]. split; [exact Hcount |].
  destruct Hengine2 as [Hnone | (e2 & He2 & Hwd & Hoid2)]; [now left |].
  right. exists e2. repeat split; [exact He2 | exact Hwd | lia].
Qed.

Lemma second_initialization_reconstructs_witness :
  exists a2 w2,
    initialize_lightrag Sample.ready_agent default_working_dir
      (snd (initialize_lightrag Sample.fresh_agent default_working_dir
              Sample.world))
    = (Returned a2, w2) /\
    (3 < constructed w2)%nat /\
    (lightrag_instance a2 = None \/
     exists engine2,
       lightrag_instance a2 = Some engine2 /\
       working_dir engine2 = default_working_dir /\
       (2 < oid engine2)%nat).
Proof.
  apply (second_initialization_reconstructs
           Sample.fresh_agent Sample.ready_agent default_working_dir
           Sample.world
           (snd (initialize_lightrag Sample.fresh_agent default_working_dir
                   Sample.world))
           {| oid := 2; working_dir := default_working_dir;
              embedder_model := "text-embedding-ada-002";
              llm_model := "gpt-4o-mini" |}).
  - reflexivity.
  - reflexivity.
Defined.

End HandleFacts.

(** * Further properties of the code *)

(** ** Construction of the agent *)

Section InitFacts.

(** X1: [IndexingAgent.__init__] returns an agent exactly when
    [load_dotenv()] succeeds, a key is available and the OpenAI client can be
    constructed; the agent then has a non-empty key and no engine, and a
    non-empty explicit key is the one kept, whatever the environment holds.
    When [load_dotenv()] raises, its exception escapes.  When no key is
    available (the explicit one is [None] or empty and the environment
    variable is unset or empty) it raises [ValueError] before any client is
    constructed.  When the client constructor raises, that exception
    escapes. *)
Theorem init_outcome (openai_api_key : option string) (w : World) :
  (exists self w',
     __init__ openai_api_key w = (Returned self, w') /\
     load_dotenv_raises w = None /\
     constructor_raises w (constructed w) OpenAI_client = None /\
     constructed w' = S (constructed w) /\
     api_key self <> "" /\
     lightrag_instance self = None /\
     (forall k, openai_api_key = Some k -> k <> "" -> api_key self = k) /\
     ((openai_api_key = None \/ openai_api_key = Some "") ->
      environ w "OPENAI_API_KEY" = Some (api_key self))) \/
  (exists e,
     __init__ openai_api_key w = (Raised e, w) /\
     load_dotenv_raises w = Some e) \/
  (exists msg,
     __init__ openai_api_key w = (Raised (ValueError msg), w) /\
     load_dotenv_raises w = None /\
     (openai_api_key = None \/ openai_api_key = Some "") /\
     (environ w "OPENAI_API_KEY" = None \/
      environ w "OPENAI_API_KEY" = Some "")) \/
  (exists e w',
     __init__ openai_api_key w = (Raised e, w') /\
     load_dotenv_raises w = None /\
     constructor_raises w (constructed w) OpenAI_client = Some e /\
     constructed w' = S (constructed w)).
Proof.
  unfold __init__, load_dotenv, os_getenv, construct.
  unfold mbind, M_bind, mret, M_ret, raise. cbv beta.
  destruct (load_dotenv_raises w) as [e0|].
  { right. left. exists e0. split; reflexivity. }
  assert (Hclient : forall k : string,
    k <> "" ->
    (forall k', openai_api_key = Some k' -> k' <> "" -> k = k') ->
    ((openai_api_key = None \/ openai_api_key = Some "") ->
     environ w "OPENAI_API_KEY" = Some k) ->
    (exists self w',
       (let (o, w'0) :=
          match constructor_raises w (constructed w) OpenAI_client with
          | Some e =>
              (Raised e, record (Constructed OpenAI_client) (count_constructor w))
          | None =>
              (Returned (constructed w),
               record (Constructed OpenAI_client) (count_constructor w))
          end in
        match o with
        | Returned _ =>
            (Returned {| api_key := k; lightrag_instance := None |}, w'0)
        | Raised e => (Raised e, w'0)
        end) = (Returned self, w') /\
       @None exn = None /\
       constructor_raises w (constructed w) OpenAI_client = None /\
       constructed w' = S (constructed w) /\
       api_key self <> "" /\
       lightrag_instance self = None /\
       (forall k', openai_api_key = Some k' -> k' <> "" -> api_key self = k') /\
       ((openai_api_key = None \/ openai_api_key = Some "") ->
        environ w "OPENAI_API_KEY" = Some (api_key self))) \/
    (exists e w',
       (let (o, w'0) :=
          match constructor_raises w (constructed w) OpenAI_client with
          | Some e =>
              (Raised e, record (Constructed OpenAI_client) (count_constructor w))
          | None =>
              (Returned (constructed w),
               record (Constructed OpenAI_client) (count_constructor w))
          end in
        match o with
        | Returned _ =>
            (Returned {| api_key := k; lightrag_instance := None |}, w'0)
        | Raised e => (Raised e, w'0)
        end) = (Raised e, w') /\
       @None exn = None /\
       constructor_raises w (constructed w) OpenAI_client = Some e /\
       constructed w' = S (constructed w))).
  { intros k Hk Hexplicit Henv.
    destruct (constructor_raises w (constructed w) OpenAI_client) as [e|].
    - right. exists e, (record (Constructed OpenAI_client) (count_constructor w)).
      repeat split.
    - left.
      exists {| api_key := k; lightrag_instance := None |},
             (record (Constructed OpenAI_client) (count_constructor w)).
      split; [reflexivity |]. split; [reflexivity |]. split; [reflexivity |].
      split; [reflexivity |]. split; [exact Hk |]. split; [reflexivity |].
      split; [exact Hexplicit | exact Henv]. }
  destruct openai_api_key as [[|c k]|]; cbn [Py.truthy].
  - destruct (environ w "OPENAI_API_KEY") as [[|c' k']|] eqn:Henv;
      cbn [Py.truthy].
    + right. right. left. eexists. split; [reflexivity |].
      split; [reflexivity |]. split; [now right | now right].
    + destruct (Hclient (String c' k')) as [H | H].
      * discriminate.
      * intros k0 [= <-] Hk0. now contradiction Hk0.
      * intros _. reflexivity.
      * left. exact H.
      * right. right. right. exact H.
    + right. right. left. eexists. split; [reflexivity |].
      split; [reflexivity |]. split; [now right | now left].
  - destruct (Hclient (String c k)) as [H | H].
    + discriminate.
    + intros k0 [= <-] _. reflexivity.
    + intros [H | H]; discriminate H.
    + left. exact H.
    + right. right. right. exact H.
  - destruct (environ w "OPENAI_API_KEY") as [[|c' k']|] eqn:Henv;
      cbn [Py.truthy].
    + right. right. left. eexists. split; [reflexivity |].
      split; [reflexivity |]. split; [now left | now right].
    + destruct (Hclient (String c' k')) as [H | H].
      * discriminate.
      * intros k0 H0. discriminate H0.
      * intros _. reflexivity.
      * left. exact H.
      * right. right. right. exact H.
    + right. right. left. eexists. split; [reflexivity |].
      split; [reflexivity |]. split; [now left | now left].
Qed.

End InitFacts.

(** ** More about the engine handle *)

Section MoreHandleFacts.

(** X2: [os.makedirs] sits outside the [try] of [initialize_lightrag]: when
    it raises, the exception reaches the caller, no constructor has been
    called, and the caller's agent is left as it was. *)
Theorem makedirs_failure_escapes
        (self : IndexingAgent) (dir : string) (w : World) (e : exn) :
  makedirs_raises w dir = Some e ->
  exists w',
    initialize_lightrag self dir w = (Raised e, w') /\
    constructed w' = constructed w /\
    log w' = MadeDirs dir :: log w.
Proof.
  intros Hdir. unfold initialize_lightrag, os_makedirs, mbind, M_bind.
  cbv beta. rewrite Hdir. eexists. split; [reflexivity |]. split; reflexivity.
Qed.

Lemma makedirs_failure_escapes_witness :
  exists w',
    initialize_lightrag Sample.ready_agent default_working_dir
      Scenario.readonly_world
    = (Raised (OtherException "Read-only file system"), w') /\
    constructed w' = constructed Scenario.readonly_world /\
    log w' = MadeDirs default_working_dir :: log Scenario.readonly_world.
Proof.
  apply (makedirs_failure_escapes Sample.ready_agent default_working_dir
           Scenario.readonly_world (OtherException "Read-only file system")).
  reflexivity.
Defined.

(** X3: when the directory can be made, [initialize_lightrag] returns
    normally whatever the constructors do, keeps the key, and leaves an
    engine in the handle exactly when the three constructor calls succeed;
    the engine is then bound to the directory asked for.  At most three
    constructor calls are made. *)
Theorem initialize_lightrag_outcome
        (self : IndexingAgent) (dir : string) (w : World) :
  makedirs_raises w dir = None ->
  exists self' w',
    initialize_lightrag self dir w = (Returned self', w') /\
    api_key self' = api_key self /\
    (constructed w < constructed w' <= constructed w + 3)%nat /\
    (constructors_succeed w = true ->
     exists engine,
       lightrag_instance self' = Some engine /\ working_dir engine = dir) /\
    (constructors_succeed w = false -> lightrag_instance self' = None).
Proof.
  intros Hdir. unfold initialize_lightrag, os_makedirs, constructors_succeed.
  unfold mbind, M_bind, try_except, construct, mret, M_ret. cbv beta.
  rewrite Hdir. unfold record, count_constructor. simpl.
  destruct (constructor_raises w (constructed w) OpenAIEmbedder) as [e|]; simpl.
  { eexists _, _. split; [reflexivity |]. simpl.
    repeat split; try lia; try discriminate. }
  destruct (constructor_raises w (S (constructed w)) OpenAIChatLLM) as [e|]; simpl.
  { eexists _, _. split; [reflexivity |]. simpl.
    repeat split; try lia; try discriminate. }
  destruct (constructor_raises w (S (S (constructed w))) LightRAG_engine) as [e|];
    simpl.
  { eexists _, _. split; [reflexivity |]. simpl.
    repeat split; try lia; try discriminate. }
  eexists _, _. split; [reflexivity |]. simpl.
  repeat split; try lia; try discriminate.
  intros _. eexists. split; reflexivity.
Qed.

Lemma initialize_lightrag_outcome_witness :
  exists self' w',
    initialize_lightrag Sample.fresh_agent "./store" Sample.flaky_world
    = (Returned self', w') /\
    api_key self' = "sk-test" /\
    (0 < constructed w' <= 3)%nat /\
    (constructors_succeed Sample.flaky_world = true ->
     exists engine,
       lightrag_instance self' = Some engine /\ working_dir engine = "./store") /\
    (constructors_succeed Sample.flaky_world = false ->
     lightrag_instance self' = None).
Proof.
  apply (initialize_lightrag_outcome Sample.fresh_agent "./store"
           Sample.flaky_world).
  reflexivity.
Defined.

End MoreHandleFacts.

(** ** More about pdf_processor *)

Section MorePdfProcessorFacts.
Import pdf_processor.

Lemma opens_unlocked_decrypts (reader : PyPDF2.PdfReader) (w : World) :
  opens_unlocked reader ->
  decrypt_with_empty_password reader w = (Returned true, w).
Proof.
  intros Hopen. rewrite decrypt_with_empty_password_returns.
  destruct Hopen as [-> | [u ->]]; [reflexivity |].
  now rewrite andb_false_r.
Qed.

(** The loop keeps the texts of the pages, in page order, without the empty
    ones. *)
Lemma page_texts_all (pages : list PyPDF2.PageObject) (ts parts : list string)
      (w : World) :
  map PyPDF2.extract_text pages = map (@Returned string) ts ->
  page_texts pages parts w
  = (Returned (parts ++ List.filter Py.truthy ts)%list, w).
Proof.
  revert ts parts. induction pages as [|page rest IH]; intros [|t ts] parts H;
    try discriminate H.
  - simpl. now rewrite List.app_nil_r.
  - simpl in H. injection H as Ht Hrest.
    simpl. unfold mbind, M_bind, lift. rewrite Ht.
    rewrite (IH ts _ Hrest).
    destruct (Py.truthy t); [| reflexivity].
    now rewrite <- List.app_assoc.
Qed.


Lemma page_count_length (pages : list PyPDF2.PageObject) :
  page_count pages = Z.of_nat (length pages).
Proof. destruct pages; reflexivity. Qed.

(** X4: whatever [open] or a PyPDF2 call raises ([FileNotFoundError],
    [PdfReadError] or any other exception, at any step: opening, parsing,
    decrypting, reading the page tree, the document information or the text
    of a page), the extractor that made the call handles it and returns a
    value, for any path and any method; each extractor opens the file at most
    once and changes nothing else in the world. *)
Theorem library_exceptions_are_handled (pdf_path method : string) (w : World) :
  (exists text w',
     extract_text_from_pdf pdf_path method w = (Returned text, w') /\
     (w' = w \/ w' = record (Opened pdf_path) w)) /\
  (exists metadata_dict,
     extract_metadata_from_pdf pdf_path w
     = (Returned metadata_dict, record (Opened pdf_path) w)).
Proof.
  split.
  - destruct (String.eqb_spec method "pypdf2") as [-> | Hne].
    + destruct (extract_text_from_pdf_returns pdf_path w) as [text H].
      exists text, (record (Opened pdf_path) w). split; [exact H | now right].
    + exists "", w. split; [| now left].
      unfold extract_text_from_pdf.
      apply String.eqb_neq in Hne. now rewrite Hne.
  - apply extract_metadata_from_pdf_returns.
Qed.

(** X5: for a file that opens and whose pages all give their text, the
    extracted text is the texts of the pages in page order, empty ones left
    out, joined by newlines (the empty string for a file without pages). *)
Theorem pages_are_joined (pdf_path : string) (w : World)
        (reader : PyPDF2.PdfReader) (pages : list PyPDF2.PageObject)
        (ts : list string) :
  disk w pdf_path = Some (Pdf reader) ->
  opens_unlocked reader ->
  PyPDF2.pages reader = Returned pages ->
  map PyPDF2.extract_text pages = map (@Returned string) ts ->
  extract_text_from_pdf pdf_path "pypdf2" w =
  (Returned (Py.join Py.newline (List.filter Py.truthy ts)),
   record (Opened pdf_path) w).
Proof.
  intros Hdisk Hopen Hpages Htexts.
  unfold extract_text_from_pdf. rewrite String.eqb_refl.
  unfold try_except, mbind, M_bind, open_rb. cbv beta. rewrite Hdisk.
  unfold PdfReader, mret, M_ret.
  rewrite (opens_unlocked_decrypts _ _ Hopen).
  unfold lift. cbv beta. rewrite Hpages.
  destruct pages as [|page rest].
  - destruct ts; [reflexivity | discriminate Htexts].
  - rewrite (page_texts_all _ _ _ _ Htexts). reflexivity.
Qed.

Lemma pages_are_joined_witness :
  extract_text_from_pdf "report.pdf" "pypdf2" Scenario.world =
  (Returned ("Page one" +:+ Py.newline +:+ "Page two"),
   record (Opened "report.pdf") Scenario.world).
Proof.
  apply (pages_are_joined "report.pdf" Scenario.world Scenario.report_reader
           [Scenario.page "Page one"; Scenario.page ""; Scenario.page "Page two"]
           ["Page one"; ""; "Page two"]).
  - reflexivity.
  - right. exists tt. reflexivity.
  - reflexivity.
  - reflexivity.
Defined.



(** X7: the dictionary [extract_metadata_from_pdf] returns is of one of two
    kinds, never a mix: an error record, holding [Error] and [FilePath] and
    nothing else, or a metadata mapping, holding [PageCount] and neither
    [Error] nor [FilePath]. *)
Theorem metadata_error_or_page_count (pdf_path : string) (w : World) :
  exists metadata_dict,
    result (extract_metadata_from_pdf pdf_path) w = Returned metadata_dict /\
    ((exists cause,
        metadata_dict = error_record cause pdf_path /\
        dom metadata_dict = {[ "Error"; "FilePath" ]}) \/
     (metadata_dict !! "Error" = None /\
      metadata_dict !! "FilePath" = None /\
      exists n : nat, metadata_dict !! "PageCount" = Some (Py.Int (Z.of_nat n)))).
Proof.
  assert (Herr : forall cause,
             exists cause',
               error_record cause pdf_path = error_record cause' pdf_path /\
               dom (error_record cause pdf_path)
               = ({[ "Error"; "FilePath" ]} : gset string)).
  { intros cause. exists cause. split; [reflexivity |].
    unfold error_record. rewrite !dom_insert_L, dom_empty_L. set_solver. }
  unfold result, extract_metadata_from_pdf.
  unfold try_except, mbind, M_bind, open_rb. cbv beta.
  destruct (disk w pdf_path) as [[e|reader]|].
  - simpl. destruct e; eexists; (split; [reflexivity | left; apply Herr]).
  - unfold PdfReader, mret, M_ret.
    rewrite decrypt_with_empty_password_returns.
    destruct (negb _);
      [| eexists; split; [reflexivity | left; apply Herr]].
    unfold lift. cbv beta.
    destruct (PyPDF2.metadata reader) as [[md|]|e].
    + destruct (PyPDF2.truthy md);
        (destruct (PyPDF2.pages reader) as [pages|e];
         [| destruct e; eexists; (split; [reflexivity | left; apply Herr])]);
        (eexists; split; [reflexivity |]; right;
         rewrite page_count_length; split; [| split; [| exists (length pages)]];
         lookups; try reflexivity;
         destruct (PyPDF2.get_object md); lookups; reflexivity).
    + destruct (PyPDF2.pages reader) as [pages|e];
        [| destruct e; eexists; (split; [reflexivity | left; apply Herr])].
      eexists. split; [reflexivity |]. right.
      rewrite page_count_length. split; [| split; [| exists (length pages)]];
        lookups; reflexivity.
    + destruct e; eexists; (split; [reflexivity | left; apply Herr]).
  - destruct (open_exception w pdf_path);
      eexists; (split; [reflexivity | left; apply Herr]).
Qed.

(** X8: for a file that opens and whose page tree and metadata read, the
    mapping has all eight keys when the document has metadata and only
    [PageCount] when it has none; [PageCount] is the number of pages.  Each
    of the other seven keys holds the field of the document as a string, or
    [None] when the document lacks it (for the two dates: when it is absent
    or empty), so a missing field is a key with value [None], not a missing
    key. *)
Theorem metadata_key_set (pdf_path : string) (w : World)
        (reader : PyPDF2.PdfReader) (pages : list PyPDF2.PageObject)
        (info : option PyPDF2.DocumentInformation) :
  disk w pdf_path = Some (Pdf reader) ->
  opens_unlocked reader ->
  PyPDF2.pages reader = Returned pages ->
  PyPDF2.metadata reader = Returned info ->
  exists metadata_dict,
    result (extract_metadata_from_pdf pdf_path) w = Returned metadata_dict /\
    metadata_dict !! "PageCount" = Some (Py.Int (Z.of_nat (length pages))) /\
    dom metadata_dict =
      match info with
      | Some md => if PyPDF2.truthy md then metadata_keys else {[ "PageCount" ]}
      | None => {[ "PageCount" ]}
      end /\
    (forall md, info = Some md -> PyPDF2.truthy md = true ->
       metadata_dict !! "Title" = Some (Py.str_or_none (PyPDF2.title md)) /\
       metadata_dict !! "Author" = Some (Py.str_or_none (PyPDF2.author md)) /\
       metadata_dict !! "Subject" = Some (Py.str_or_none (PyPDF2.subject md)) /\
       metadata_dict !! "Creator" = Some (Py.str_or_none (PyPDF2.creator md)) /\
       metadata_dict !! "Producer" = Some (Py.str_or_none (PyPDF2.producer md)) /\
       metadata_dict !! "CreationDate" =
         Some match PyPDF2.get_object md with
              | Some raw_metadata => Py.str_if_truthy (raw_metadata "/CreationDate")
              | None => Py.None_
              end /\
       metadata_dict !! "ModDate" =
         Some match PyPDF2.get_object md with
              | Some raw_metadata => Py.str_if_truthy (raw_metadata "/ModDate")
              | None => Py.None_
              end).
Proof.
  intros Hdisk Hopen Hpages Hinfo.
  unfold result, extract_metadata_from_pdf.
  unfold try_except, mbind, M_bind, open_rb. cbv beta. rewrite Hdisk.
  unfold PdfReader, mret, M_ret.
  rewrite (opens_unlocked_decrypts _ _ Hopen).
  unfold lift. cbv beta. rewrite Hinfo, Hpages.
  rewrite <- page_count_length.
  destruct info as [md|]; [destruct (PyPDF2.truthy md) eqn:Htruthy |].
  - eexists. split; [reflexivity |]. split; [apply lookup_insert_eq |].
    split.
    + unfold metadata_keys.
      destruct (PyPDF2.get_object md);
        rewrite !dom_insert_L, dom_empty_L; set_solver.
    + intros md' [= <-] _.
      destruct (PyPDF2.get_object md); repeat split; lookups; reflexivity.
  - eexists. split; [reflexivity |]. split; [apply lookup_insert_eq |].
    split; [| intros md' [= <-] H; congruence].
    rewrite dom_insert_L, dom_empty_L. set_solver.
  - eexists. split; [reflexivity |]. split; [apply lookup_insert_eq |].
    split; [| intros md' [=]].
    rewrite dom_insert_L, dom_empty_L. set_solver.
Qed.

Lemma metadata_key_set_witness :
  exists metadata_dict,
    result (extract_metadata_from_pdf "hello.pdf") Sample.world
    = Returned metadata_dict /\
    metadata_dict !! "PageCount" = Some (Py.Int 1) /\
    dom metadata_dict = metadata_keys /\
    (forall md, Some Sample.hello_info = Some md -> PyPDF2.truthy md = true ->
       metadata_dict !! "Title" = Some (Py.str_or_none (PyPDF2.title md)) /\
       metadata_dict !! "Author" = Some (Py.str_or_none (PyPDF2.author md)) /\
       metadata_dict !! "Subject" = Some (Py.str_or_none (PyPDF2.subject md)) /\
       metadata_dict !! "Creator" = Some (Py.str_or_none (PyPDF2.creator md)) /\
       metadata_dict !! "Producer" = Some (Py.str_or_none (PyPDF2.producer md)) /\
       metadata_dict !! "CreationDate" =
         Some match PyPDF2.get_object md with
              | Some raw_metadata => Py.str_if_truthy (raw_metadata "/CreationDate")
              | None => Py.None_
              end /\
       metadata_dict !! "ModDate" =
         Some match PyPDF2.get_object md with
              | Some raw_metadata => Py.str_if_truthy (raw_metadata "/ModDate")
              | None => Py.None_
              end).
Proof.
  apply (metadata_key_set "hello.pdf" Sample.world Sample.hello_reader
           [Sample.hello_page] (Some Sample.hello_info)).
  - reflexivity.
  - left. reflexivity.
  - reflexivity.
  - reflexivity.
Defined.

End MorePdfProcessorFacts.

(** ** More about the derivation stage *)

Section MoreDerivationFacts.

(** X9: the summary is bounded: for [max_chars >= 0] it is never longer
    than [max_chars] plus the 26 characters of the two markers, or than the
    35 characters of the "no input" message. *)
Theorem summary_is_bounded (text : string) (max_chars : Z) :
  0 <= max_chars ->
  Py.len (_summarize_text text max_chars) <= Z.max 35 (max_chars + 26).
Proof.
  intros Hmax. unfold _summarize_text.
  destruct (Py.truthy text) eqn:Htext; simpl negb; cbv iota.
  - destruct (Z.gtb_spec (Py.len text) max_chars) as [Hlong | Hshort].
    + rewrite slice_to_nonneg by exact Hmax.
      unfold Py.len in *. rewrite !length_app.
      rewrite substring_length by lia. simpl String.length.
      rewrite !Nat2Z.inj_add, Z2Nat.id by exact Hmax.
      apply Z.le_trans with (max_chars + 26); [lia | apply Z.le_max_r].
    + unfold Py.len in *. rewrite length_app. simpl String.length.
      rewrite Nat2Z.inj_add.
      apply Z.le_trans with (max_chars + 26); [lia | apply Z.le_max_r].
  - change (35 <= Z.max 35 (max_chars + 26)). apply Z.le_max_l.
Qed.

Lemma summary_is_bounded_witness :
  Py.len (_summarize_text "abcdef" 2) <= Z.max 35 (2 + 26).
Proof. apply (summary_is_bounded "abcdef" 2). lia. Defined.

(** X10: absent input can be told from any input: the summary and the
    classification of a non-empty text are never the "no input" messages. *)
Theorem derived_text_is_not_no_input (text : string) (max_chars max_chars' : Z) :
  text <> "" ->
  _summarize_text text max_chars <> _summarize_text "" max_chars' /\
  _classify_document text <> _classify_document "".
Proof.
  intros Hne. destruct text as [|c text]; [congruence |].
  unfold _summarize_text, _classify_document. simpl Py.truthy. simpl negb.
  cbv iota. split.
  - rewrite app_cons. discriminate.
  - discriminate.
Qed.

Lemma derived_text_is_not_no_input_witness :
  _summarize_text "No text provided for summarization." 500
    <> _summarize_text "" 500 /\
  _classify_document "No text provided for classification."
    <> _classify_document "".
Proof.
  apply (derived_text_is_not_no_input
           "No text provided for summarization." 500 500).
  discriminate.
Defined.

(** X11: the summary of a text longer than [max_chars >= 0] depends on its
    first [max_chars] characters only: two such texts that agree there have
    the same summary. *)
Theorem long_summary_depends_on_prefix (t1 t2 : string) (max_chars : Z) :
  0 <= max_chars ->
  Py.len t1 > max_chars ->
  Py.len t2 > max_chars ->
  Py.slice_to t1 max_chars = Py.slice_to t2 max_chars ->
  _summarize_text t1 max_chars = _summarize_text t2 max_chars.
Proof.
  intros Hmax H1 H2 Hprefix. unfold _summarize_text.
  assert (Ht1 : Py.truthy t1 = true).
  { destruct t1; [unfold Py.len in H1; simpl in H1; lia | reflexivity]. }
  assert (Ht2 : Py.truthy t2 = true).
  { destruct t2; [unfold Py.len in H2; simpl in H2; lia | reflexivity]. }
  rewrite Ht1, Ht2. simpl negb. cbv iota.
  destruct (Z.gtb_spec (Py.len t1) max_chars); [| lia].
  destruct (Z.gtb_spec (Py.len t2) max_chars); [| lia].
  now rewrite Hprefix.
Qed.

Lemma long_summary_depends_on_prefix_witness :
  _summarize_text "abcdef" 3 = _summarize_text "abcxyz and more" 3.
Proof.
  apply (long_summary_depends_on_prefix "abcdef" "abcxyz and more" 3);
    [lia | reflexivity | reflexivity | reflexivity].
Defined.

End MoreDerivationFacts.

(** ** More about the pipeline *)

Section MorePipelineFacts.
Import pdf_processor.

Lemma page_texts_same_result (pages : list PyPDF2.PageObject)
      (parts : list string) (w w' : World) :
  fst (page_texts pages parts w) = fst (page_texts pages parts w').
Proof.
  revert parts. induction pages as [|page rest IH]; intros parts; [reflexivity |].
  simpl. unfold mbind, M_bind, lift.
  destruct (PyPDF2.extract_text page); [apply IH | reflexivity].
Qed.

(** What [extract_text_from_pdf] returns depends on the file only, not on
    what the process did before. *)
Lemma extract_text_from_pdf_same_file (pdf_path method : string) (w w' : World) :
  disk w pdf_path = disk w' pdf_path ->
  fst (extract_text_from_pdf pdf_path method w)
  = fst (extract_text_from_pdf pdf_path method w').
Proof.
  intros Hdisk. unfold extract_text_from_pdf.
  destruct (String.eqb method "pypdf2"); [| reflexivity].
  unfold try_except, mbind, M_bind, open_rb. cbv beta. rewrite <- Hdisk.
  destruct (disk w pdf_path) as [[e|reader]|].
  - simpl. destruct e; reflexivity.
  - unfold PdfReader, mret, M_ret.
    rewrite !decrypt_with_empty_password_returns.
    destruct (negb _); [| reflexivity].
    unfold lift. cbv beta.
    destruct (PyPDF2.pages reader) as [[|page rest]|e].
    + reflexivity.
    + pose proof (page_texts_same_result (page :: rest) []
                    (record (Opened pdf_path) w)
                    (record (Opened pdf_path) w')) as Hsame.
      destruct (page_texts (page :: rest) [] (record (Opened pdf_path) w))
        as [[parts|e] w1];
      destruct (page_texts (page :: rest) [] (record (Opened pdf_path) w'))
        as [[parts'|e'] w1']; simpl in Hsame; try discriminate Hsame.
      * injection Hsame as <-. reflexivity.
      * injection Hsame as <-. destruct e; reflexivity.
    + destruct e; reflexivity.
  - destruct (open_exception w pdf_path), (open_exception w' pdf_path);
      reflexivity.
Qed.

Lemma len_if_truthy (text : string) :
  (if Py.truthy text then Py.len text else 0) = Py.len text.
Proof. destruct text; reflexivity. Qed.

Lemma substring_length_le (s : string) (n : nat) :
  (String.length (String.substring 0 n s) <= n)%nat.
Proof.
  revert n. induction s as [|c s IH]; intros [|n]; simpl; try lia.
  specialize (IH n). lia.
Qed.

(** X12: on an agent with an engine the pipeline always returns a record,
    never [None] and never an [error] record, and all its fields speak of
    the same text, the one [extract_text_from_pdf] gives for the path: the
    length is its length, the summary is its summary, the classification is
    its classification, and the record has an indexing status, which is
    "Skipped (no text)" exactly when that text is empty. *)
Theorem pipeline_fields_agree
        (self : IndexingAgent) (pdf_path : string) (w : World) :
  is_Some (lightrag_instance self) ->
  exists r text,
    result (extract_text pdf_path) w = Returned text /\
    result (aprocess_pdf_document_and_index self pdf_path) w
    = Returned (Some r) /\
    r !! "error" = None /\
    r !! "file_path" = Some (Py.Str pdf_path) /\
    r !! "full_text_char_count" = Some (Py.Int (Py.len text)) /\
    r !! "summary" = Some (Py.Str (_summarize_text text default_max_chars)) /\
    r !! "classification" = Some (Py.Str (_classify_document text)) /\
    populated "indexing_status" r /\
    (r !! "indexing_status" = Some (Py.Str "Skipped (no text)") <-> text = "").
Proof.
  intros Hready.
  destruct (extract_text_returns pdf_path w) as [text Ht].
  destruct (extract_metadata_from_pdf_returns pdf_path
              (record (Opened pdf_path) w)) as [metadata Hm].
  destruct (extract_text_returns pdf_path
              (record (Opened pdf_path) (record (Opened pdf_path) w)))
    as [full_text Hfull].
  assert (Hsame : full_text = text).
  { pose proof (extract_text_from_pdf_same_file pdf_path "pypdf2"
                  (record (Opened pdf_path) (record (Opened pdf_path) w)) w
                  eq_refl) as H.
    unfold extract_text in Ht, Hfull. rewrite Ht, Hfull in H.
    simpl in H. congruence. }
  subst full_text.
  destruct (aprocess_pdf_document_and_index_success
              extract_text extract_metadata_from_pdf
              self _ _ _ _ _ _ _ _ Hready Ht Hm Hfull)
    as (r & Hrun & Hfields & Hstatus).
  exists r, text. unfold result. rewrite Ht.
  unfold aprocess_pdf_document_and_index. rewrite Hrun.
  destruct Hfields as (He & Hp & _ & _ & Hn & Hs & Hc).
  rewrite len_if_truthy in Hn.
  split; [reflexivity |]. split; [reflexivity |]. split; [exact He |].
  split; [exact Hp |]. split; [exact Hn |]. split; [exact Hs |].
  split; [exact Hc |].
  split; [unfold populated; rewrite Hstatus; eauto |].
  rewrite Hstatus. destruct text as [|c text]; simpl; split;
    intros H; try reflexivity; discriminate H.
Qed.

Lemma pipeline_fields_agree_witness :
  exists r text,
    result (extract_text "report.pdf") Scenario.world = Returned text /\
    result (aprocess_pdf_document_and_index Sample.ready_agent "report.pdf")
      Scenario.world = Returned (Some r) /\
    r !! "error" = None /\
    r !! "file_path" = Some (Py.Str "report.pdf") /\
    r !! "full_text_char_count" = Some (Py.Int (Py.len text)) /\
    r !! "summary" = Some (Py.Str (_summarize_text text default_max_chars)) /\
    r !! "classification" = Some (Py.Str (_classify_document text)) /\
    populated "indexing_status" r /\
    (r !! "indexing_status" = Some (Py.Str "Skipped (no text)") <-> text = "").
Proof.
  apply (pipeline_fields_agree Sample.ready_agent "report.pdf" Scenario.world).
  eexists. reflexivity.
Defined.

(** X13: with the extractors of [pdf_processor], [process_pdf_document]
    never returns an error record, whatever the path: the record always has
    the same six keys, [file_path] holds the path, and the snippet is never
    longer than 203 characters. *)
Theorem process_pdf_document_shape (pdf_path : string) (w : World) :
  exists r snippet,
    result (process_pdf_document pdf_path) w = Returned r /\
    dom r = {[ "file_path"; "metadata"; "extracted_text_snippet";
               "full_text_char_count"; "summary"; "classification" ]} /\
    r !! "file_path" = Some (Py.Str pdf_path) /\
    r !! "extracted_text_snippet" = Some (Py.Str snippet) /\
    Py.len snippet <= 203.
Proof.
  destruct (extract_text_returns pdf_path w) as [text Ht].
  destruct (extract_metadata_from_pdf_returns pdf_path
              (record (Opened pdf_path) w)) as [metadata Hm].
  unfold result, process_pdf_document, indexing_agent.process_pdf_document.
  unfold try_except, mbind, M_bind, mret, M_ret. rewrite Ht, Hm. simpl.
  eexists _, _. split; [reflexivity |]. split; [| split; [| split]].
  - rewrite !dom_insert_L, dom_empty_L. set_solver.
  - lookups. reflexivity.
  - lookups. reflexivity.
  - destruct (Py.truthy text); [| vm_compute; discriminate].
    unfold Py.len. rewrite length_app, slice_to_nonneg by lia.
    pose proof (substring_length_le text (Z.to_nat 200)) as Hle.
    simpl String.length. lia.
Qed.

(** X14: a file from which nothing can be read goes through the whole
    pipeline as an empty document: no [error], the cause inside [metadata],
    snippet "N/A", length 0, the "no input" markers, and the status
    "Skipped (no text)". *)
Theorem unreadable_file_is_skipped
        (self : IndexingAgent) (pdf_path : string) (w : World) :
  is_Some (lightrag_instance self) ->
  unreadable w pdf_path = true ->
  exists r cause,
    result (aprocess_pdf_document_and_index self pdf_path) w
    = Returned (Some r) /\
    r !! "error" = None /\
    r !! "metadata" = Some (Py.Dict (error_record cause pdf_path)) /\
    r !! "extracted_text_snippet" = Some (Py.Str "N/A") /\
    r !! "full_text_char_count" = Some (Py.Int 0) /\
    r !! "summary" = Some (Py.Str "No text provided for summarization.") /\
    r !! "classification" = Some (Py.Str "No text provided for classification.") /\
    r !! "indexing_status" = Some (Py.Str "Skipped (no text)").
Proof.
  intros Hready Hbad.
  pose proof (extract_text_from_pdf_unreadable pdf_path w Hbad) as Ht.
  destruct (extract_metadata_from_pdf_unreadable pdf_path
              (record (Opened pdf_path) w) Hbad) as [cause Hm].
  pose proof (extract_text_from_pdf_unreadable pdf_path
                (record (Opened pdf_path) (record (Opened pdf_path) w)) Hbad)
    as Hfull.
  destruct (aprocess_pdf_document_and_index_success
              extract_text extract_metadata_from_pdf
              self _ _ _ _ _ _ _ _ Hready Ht Hm Hfull)
    as (r & Hrun & Hfields & Hstatus).
  exists r, cause. unfold result, aprocess_pdf_document_and_index. rewrite Hrun.
  destruct Hfields as (He & _ & Hmd & Hsn & Hn & Hs & Hc).
  repeat split; assumption.
Qed.

Lemma unreadable_file_is_skipped_witness :
  exists r cause,
    result (aprocess_pdf_document_and_index Sample.ready_agent "corrupt.pdf")
      Sample.world = Returned (Some r) /\
    r !! "error" = None /\
    r !! "metadata" = Some (Py.Dict (error_record cause "corrupt.pdf")) /\
    r !! "extracted_text_snippet" = Some (Py.Str "N/A") /\
    r !! "full_text_char_count" = Some (Py.Int 0) /\
    r !! "summary" = Some (Py.Str "No text provided for summarization.") /\
    r !! "classification" = Some (Py.Str "No text provided for classification.") /\
    r !! "indexing_status" = Some (Py.Str "Skipped (no text)").
Proof.
  apply (unreadable_file_is_skipped Sample.ready_agent "corrupt.pdf"
           Sample.world).
  - eexists. reflexivity.
  - reflexivity.
Defined.

(** X15: the pipeline opens the file three times on an agent with an
    engine (text, metadata, and the text again before indexing) and
    [process_pdf_document] opens it twice; nothing else in the world
    changes. *)
Theorem pipeline_opens_file_three_times
        (self : IndexingAgent) (pdf_path : string) (w : World) :
  is_Some (lightrag_instance self) ->
  snd (process_pdf_document pdf_path w)
  = record (Opened pdf_path) (record (Opened pdf_path) w) /\
  snd (aprocess_pdf_document_and_index self pdf_path w)
  = record (Opened pdf_path)
      (record (Opened pdf_path) (record (Opened pdf_path) w)).
Proof.
  intros Hready.
  destruct (extract_text_returns pdf_path w) as [text Ht].
  destruct (extract_metadata_from_pdf_returns pdf_path
              (record (Opened pdf_path) w)) as [metadata Hm].
  destruct (extract_text_returns pdf_path
              (record (Opened pdf_path) (record (Opened pdf_path) w)))
    as [full_text Hfull].
  split.
  - destruct (process_pdf_document_success
                extract_text extract_metadata_from_pdf
                _ _ _ _ _ _ Ht Hm) as (r & Hrun & _).
    unfold process_pdf_document. now rewrite Hrun.
  - destruct (aprocess_pdf_document_and_index_success
                extract_text extract_metadata_from_pdf
                self _ _ _ _ _ _ _ _ Hready Ht Hm Hfull) as (r & Hrun & _).
    unfold aprocess_pdf_document_and_index. now rewrite Hrun.
Qed.

Lemma pipeline_opens_file_three_times_witness :
  snd (process_pdf_document "hello.pdf" Sample.world)
  = record (Opened "hello.pdf") (record (Opened "hello.pdf") Sample.world) /\
  snd (aprocess_pdf_document_and_index Sample.ready_agent "hello.pdf"
         Sample.world)
  = record (Opened "hello.pdf")
      (record (Opened "hello.pdf") (record (Opened "hello.pdf") Sample.world)).
Proof.
  apply (pipeline_opens_file_three_times Sample.ready_agent "hello.pdf"
           Sample.world).
  eexists. reflexivity.
Defined.

Lemma initialize_lightrag_ready (self : IndexingAgent) (dir : string) (w : World) :
  makedirs_raises w dir = None ->
  constructors_succeed w = true ->
  exists self' w',
    initialize_lightrag self dir w = (Returned self', w') /\
    api_key self' = api_key self /\
    is_Some (lightrag_instance self').
Proof.
  intros Hdir. unfold initialize_lightrag, os_makedirs, constructors_succeed.
  unfold mbind, M_bind, try_except, construct, mret, M_ret. cbv beta.
  rewrite Hdir. unfold record, count_constructor. simpl.
  destruct (constructor_raises w (constructed w) OpenAIEmbedder);
    [discriminate |]; simpl.
  destruct (constructor_raises w (S (constructed w)) OpenAIChatLLM);
    [discriminate |]; simpl.
  destruct (constructor_raises w (S (S (constructed w))) LightRAG_engine);
    [discriminate |]; simpl.
  intros _. eexists _, _. split; [reflexivity |]. split; [reflexivity |].
  eexists. reflexivity.
Qed.

(** X16: the life of an agent as the demo drives it.  Just after
    [__init__] the pipeline gives [None] for every path and touches
    nothing; once [initialize_lightrag] has run with all constructors
    succeeding, the same call gives a record with an indexing status. *)
Theorem agent_lifecycle (openai_api_key : option string) (dir pdf_path : string)
        (w0 w1 : World) (a0 : IndexingAgent) :
  __init__ openai_api_key w0 = (Returned a0, w1) ->
  makedirs_raises w1 dir = None ->
  constructors_succeed w1 = true ->
  aprocess_pdf_document_and_index a0 pdf_path w1 = (Returned None, w1) /\
  exists a1 w2 r,
    initialize_lightrag a0 dir w1 = (Returned a1, w2) /\
    api_key a1 = api_key a0 /\
    result (aprocess_pdf_document_and_index a1 pdf_path) w2
    = Returned (Some r) /\
    populated "indexing_status" r.
Proof.
  intros Hinit Hdir Hctors. split.
  - pose proof (init_leaves_engine_unset _ _ _ _ Hinit) as Hnone.
    unfold aprocess_pdf_document_and_index,
      indexing_agent.aprocess_pdf_document_and_index.
    now rewrite Hnone.
  - destruct (initialize_lightrag_ready a0 dir w1 Hdir Hctors)
      as (a1 & w2 & Hrun & Hkey & Hready).
    destruct (extract_text_returns pdf_path w2) as [text Ht].
    destruct (extract_metadata_from_pdf_returns pdf_path
                (record (Opened pdf_path) w2)) as [metadata Hm].
    destruct (extract_text_returns pdf_path
                (record (Opened pdf_path) (record (Opened pdf_path) w2)))
      as [full_text Hfull].
    destruct (aprocess_pdf_document_and_index_success
                extract_text extract_metadata_from_pdf
                a1 _ _ _ _ _ _ _ _ Hready Ht Hm Hfull)
      as (r & Hpipe & _ & Hstatus).
    exists a1, w2, r. split; [exact Hrun |]. split; [exact Hkey |].
    unfold result, aprocess_pdf_document_and_index. rewrite Hpipe.
    split; [reflexivity |]. unfold populated. rewrite Hstatus. eauto.
Qed.

Lemma agent_lifecycle_witness :
  aprocess_pdf_document_and_index
    {| api_key := "sk-env"; lightrag_instance := None |} "report.pdf"
    (snd (__init__ None Scenario.world))
  = (Returned None, snd (__init__ None Scenario.world)) /\
  exists a1 w2 r,
    initialize_lightrag {| api_key := "sk-env"; lightrag_instance := None |}
      default_working_dir (snd (__init__ None Scenario.world))
    = (Returned a1, w2) /\
    api_key a1 = "sk-env" /\
    result (aprocess_pdf_document_and_index a1 "report.pdf") w2
    = Returned (Some r) /\
    populated "indexing_status" r.
Proof.
  apply (agent_lifecycle None default_working_dir "report.pdf"
           Scenario.world (snd (__init__ None Scenario.world))
           {| api_key := "sk-env"; lightrag_instance := None |}).
  - reflexivity.
  - reflexivity.
  - vm_compute. reflexivity.
Defined.

End MorePipelineFacts.

(** ** More about the agent, for any extractors *)

Section MoreAgentFacts.
Variable extract_text_from_pdf : string -> M string.
Variable extract_metadata_from_pdf : string -> M (gmap string Py.value).

(** X17: when an extractor raises, the pipeline returns the error record of
    [process_pdf_document] as it is, with [error] and [path] and nothing
    else, and stops there: the text is not extracted again and no indexing
    status is added. *)
Theorem extraction_error_is_returned_verbatim
        (self : IndexingAgent) (pdf_path : string) (w w' : World) (e : exn) :
  is_Some (lightrag_instance self) ->
  (extract_text_from_pdf pdf_path w = (Raised e, w') \/
   exists text w1,
     extract_text_from_pdf pdf_path w = (Returned text, w1) /\
     extract_metadata_from_pdf pdf_path w1 = (Raised e, w')) ->
  indexing_agent.aprocess_pdf_document_and_index
    extract_text_from_pdf extract_metadata_from_pdf self pdf_path w
  = (Returned (Some (<["path" := Py.Str pdf_path]>
                       (<["error" := Py.Str (str_exn e)]> ∅))), w').
Proof.
  intros [engine Hready] Hraise.
  assert (Hrun : (text ← extract_text_from_pdf pdf_path;
                  metadata ← extract_metadata_from_pdf pdf_path;
                  mret (text, metadata)) w = (Raised e, w')).
  { unfold mbind, M_bind.
    destruct Hraise as [-> | (text & w1 & -> & ->)]; reflexivity. }
  apply process_pdf_document_error in Hrun.
  unfold indexing_agent.aprocess_pdf_document_and_index. rewrite Hready.
  rewrite (bind_returned _ _ _ _ _ Hrun).
  assert (Herr : Py.contains "error"
                   (<["path" := Py.Str pdf_path]>
                      (<["error" := Py.Str (str_exn e)]> ∅)) = true).
  { apply contains_populated. lookups. eauto. }
  rewrite Herr. reflexivity.
Qed.

End MoreAgentFacts.

Lemma extraction_error_is_returned_verbatim_witness :
  indexing_agent.aprocess_pdf_document_and_index
    (fun _ => raise (OtherException "disk on fire"))
    pdf_processor.extract_metadata_from_pdf
    Sample.ready_agent "hello.pdf" Sample.world
  = (Returned (Some (<["path" := Py.Str "hello.pdf"]>
                       (<["error" := Py.Str "disk on fire"]> ∅))),
     Sample.world).
Proof.
  apply (extraction_error_is_returned_verbatim
           (fun _ => raise (OtherException "disk on fire"))
           pdf_processor.extract_metadata_from_pdf
           Sample.ready_agent "hello.pdf" Sample.world Sample.world
           (OtherException "disk on fire")).
  - eexists. reflexivity.
  - left. reflexivity.
Defined.
